(** * garmin-backend: a shallow embedding of [app.py] and [routes.py]

    The development follows the two source files.  Python exceptions are an
    error monad [py]; the SQLite file behind [DB_PATH] is a [database] value
    (tables with named columns and rows of dynamically typed cells); the data
    root of [routes.py] is a list of directory entries; HTTP handlers return
    a status code together with a body.  Handlers that change the world
    return the new world next to their response. *)

From Stdlib Require Import ZArith QArith Qround List String Ascii Bool Lia
  Permutation Sorted DecimalString Lqa.
Import ListNotations.

Set Warnings "-register-all".

Local Open Scope string_scope.
Local Open Scope list_scope.
Local Open Scope Z_scope.

(** ** Python exceptions *)

Module Py.

(** The exception classes the two files can meet.  All of them derive from
    [Exception], so an [except Exception] clause catches each one. *)
Inductive exn_class : Type :=
| RuntimeError | DatabaseError | TypeError | ValueError | OverflowError
| OSError | KeyError | AttributeError.

Record exn : Type := mkExn { cls : exn_class; str : string }.

Inductive py (A : Type) : Type :=
| Return (a : A)
| Raise (e : exn).
Arguments Return {A} a.
Arguments Raise {A} e.

Definition raise {A : Type} (c : exn_class) (msg : string) : py A :=
  Raise (mkExn c msg).

Definition bind {A B : Type} (c : py A) (k : A -> py B) : py B :=
  match c with
  | Return a => k a
  | Raise e => Raise e
  end.

(** [try: c  except Exception as e: h e] *)
Definition try_except {A : Type} (c : py A) (h : exn -> py A) : py A :=
  match c with
  | Return a => Return a
  | Raise e => h e
  end.

Fixpoint mapM {A B : Type} (f : A -> py B) (l : list A) : py (list B) :=
  match l with
  | [] => Return []
  | x :: xs =>
      bind (f x) (fun y => bind (mapM f xs) (fun ys => Return (y :: ys)))
  end.

(** [s.startswith(p)] *)
Fixpoint startswith (p s : string) : bool :=
  match p, s with
  | EmptyString, _ => true
  | String a p', String b s' => Ascii.eqb b a && startswith p' s'
  | String _ _, EmptyString => false
  end.

(** Code that also changes a world [W]: the world reached is kept when an
    exception is raised, since what was written stays written. *)
Definition io (W A : Type) : Type := W -> py A * W.

Definition io_ret {W A : Type} (a : A) : io W A := fun w => (Return a, w).

Definition io_bind {W A B : Type} (c : io W A) (k : A -> io W B) : io W B :=
  fun w =>
    match c w with
    | (Return a, w') => k a w'
    | (Raise e, w') => (Raise e, w')
    end.

Definition io_try {W A : Type} (c : io W A) (h : exn -> io W A) : io W A :=
  fun w =>
    match c w with
    | (Return a, w') => (Return a, w')
    | (Raise e, w') => h e w'
    end.

Definition io_lift {W A : Type} (c : py A) : io W A := fun w => (c, w).

End Py.

Import Py.

Notation "x <- c ;; k" := (Py.bind c (fun x => k))
  (at level 61, c at next level, right associativity).
Notation "x <~ c ;; k" := (Py.io_bind c (fun x => k))
  (at level 61, c at next level, right associativity).

(** ** The SQLite data store *)

Module Sqlite.

(** A cell has one of SQLite's five storage classes.  A REAL is modelled
    by the rational it denotes. *)
Inductive value : Type :=
| VNull
| VInt (n : Z)
| VReal (x : Q)
| VText (s : string)
| VBlob (b : string).

Definition is_null (v : value) : bool :=
  match v with VNull => true | _ => false end.

Record table : Type := mkTable {
  tbl_cols : list string;
  tbl_rows : list (list value)
}.

(** The file at [DB_PATH].  [db_ok = false] stands for a file the engine
    cannot use (not a database, locked, unreadable): every statement then
    raises. *)
Record database : Type := mkDatabase {
  db_ok : bool;
  db_tables : list (string * table)
}.

(** *** Names

    Identifiers in a statement are matched without regard to ASCII case;
    the comparison [name = ?] on [sqlite_master] is exact. *)

Definition lower_ascii (c : ascii) : ascii :=
  let n := nat_of_ascii c in
  if andb (Nat.leb 65 n) (Nat.leb n 90) then ascii_of_nat (n + 32) else c.

Fixpoint lower (s : string) : string :=
  match s with
  | EmptyString => EmptyString
  | String c s' => String (lower_ascii c) (lower s')
  end.

Definition ieqb (a b : string) : bool := String.eqb (lower a) (lower b).

Fixpoint find_table (name : string) (ts : list (string * table))
  : option table :=
  match ts with
  | [] => None
  | (n, t) :: ts' => if ieqb n name then Some t else find_table name ts'
  end.

Fixpoint col_index (c : string) (cols : list string) : option nat :=
  match cols with
  | [] => None
  | c' :: cols' =>
      if ieqb c' c then Some O
      else option_map S (col_index c cols')
  end.

Definition cell (r : list value) (i : nat) : value := nth i r VNull.

(** *** Ordering of cells

    NULL sorts first, then numbers by numeric value, then text, then
    blobs, the last two byte by byte. *)

Definition rank (v : value) : Z :=
  match v with
  | VNull => 0
  | VInt _ | VReal _ => 1
  | VText _ => 2
  | VBlob _ => 3
  end.

Definition num (v : value) : Q :=
  match v with
  | VInt n => inject_Z n
  | VReal x => x
  | _ => 0%Q
  end.

Definition bytes (v : value) : string :=
  match v with
  | VText s | VBlob s => s
  | _ => EmptyString
  end.

Definition value_leb (a b : value) : bool :=
  if rank a <? rank b then true
  else if rank b <? rank a then false
  else match rank a with
       | 0 => true
       | 1 => Qle_bool (num a) (num b)
       | _ => String.leb (bytes a) (bytes b)
       end.

(** [a = b] in a join condition: never true when either side is NULL. *)
Definition value_eqb (a b : value) : bool :=
  negb (is_null a) && negb (is_null b) && value_leb a b && value_leb b a.

(** *** ORDER BY ... DESC and LIMIT *)

Section OrderBy.
Context {A : Type} (key : A -> value).

Fixpoint insert_desc (x : A) (l : list A) : list A :=
  match l with
  | [] => [x]
  | y :: l' =>
      if value_leb (key y) (key x) then x :: y :: l'
      else y :: insert_desc x l'
  end.

Fixpoint order_by_desc (l : list A) : list A :=
  match l with
  | [] => []
  | x :: l' => insert_desc x (order_by_desc l')
  end.

(** Adjacent rows of a descending sequence. *)
Definition desc (a b : A) : Prop := value_leb (key b) (key a) = true.
End OrderBy.

(** A negative LIMIT puts no bound on the number of rows. *)
Definition limit {A : Type} (n : Z) (l : list A) : list A :=
  if n <? 0 then l else firstn (Z.to_nat n) l.

(** *** Statements *)

Definition no_such_table (t : string) : exn :=
  mkExn DatabaseError ("no such table: " ++ t).
Definition no_such_column (c : string) : exn :=
  mkExn DatabaseError ("no such column: " ++ c).
Definition unusable : exn :=
  mkExn DatabaseError "unable to open database file".

Definition from_table (db : database) (t : string) : py table :=
  if db_ok db then
    match find_table t (db_tables db) with
    | Some tb => Return tb
    | None => Raise (no_such_table t)
    end
  else Raise unusable.

Definition column (tb : table) (c : string) : py nat :=
  match col_index c (tbl_cols tb) with
  | Some i => Return i
  | None => Raise (no_such_column c)
  end.

(** [SELECT 1 FROM sqlite_master WHERE type='table' AND name=?] *)
Definition select_master (db : database) (name : string) : py (list Z) :=
  if db_ok db then
    Return (map (fun _ => 1)
              (filter (fun p => String.eqb (fst p) name) (db_tables db)))
  else Raise unusable.

(** [SELECT name FROM sqlite_master WHERE type='table'
     AND name NOT LIKE 'sqlite_%'] where [_] matches any one character and
    LIKE ignores ASCII case. *)
Definition like_sqlite_ (name : string) : bool :=
  andb (String.eqb (lower (substring 0 6 name)) "sqlite")
       (Nat.leb 7 (String.length name)).

Definition select_user_tables (db : database) : py (list string) :=
  if db_ok db then
    Return (map fst
              (filter (fun p => negb (like_sqlite_ (fst p))) (db_tables db)))
  else Raise unusable.

(** [PRAGMA table_info(t)]: the [name] column of the answer, one row per
    column of [t]; no row at all for a table that does not exist. *)
Definition pragma_table_info (db : database) (t : string)
  : py (list string) :=
  if db_ok db then
    match find_table t (db_tables db) with
    | Some tb => Return (tbl_cols tb)
    | None => Return []
    end
  else Raise unusable.

(** An item of a select list. *)
Inductive select_item : Type :=
| Col (c : string) (alias : string)
| NullAs (alias : string).

(** A record of the result, as [DataFrame.to_dict(orient="records")]
    gives it: the aliases with their cells. *)
Definition record : Type := list (string * value).

Definition resolve (tb : table) (it : select_item)
  : py (string * option nat) :=
  match it with
  | Col c a => i <- column tb c ;; Return (a, Some i)
  | NullAs a => Return (a, None)
  end.

Definition project (sel : list (string * option nat)) (r : list value)
  : record :=
  map (fun p => (fst p,
                 match snd p with
                 | Some i => cell r i
                 | None => VNull
                 end)) sel.

(** [SELECT items FROM t [WHERE w IS NOT NULL] ORDER BY o DESC LIMIT n] *)
Definition select (db : database) (items : list select_item) (t : string)
    (where_not_null : option string) (order : string) (n : Z)
  : py (list record) :=
  tb <- from_table db t ;;
  sel <- mapM (resolve tb) items ;;
  keep <- match where_not_null with
          | Some w =>
              i <- column tb w ;;
              Return (fun r : list value => negb (is_null (cell r i)))
          | None => Return (fun _ : list value => true)
          end ;;
  o <- column tb order ;;
  Return (map (project sel)
            (limit n
               (order_by_desc (fun r => cell r o)
                  (filter keep (tbl_rows tb))))).

(** [a LEFT JOIN b ON b.ri = a.li]: every row of [a], with each row of
    [b] that matches it, or alone when none does. *)
Definition left_join (a b : list (list value)) (li ri : nat)
  : list (list value * option (list value)) :=
  flat_map
    (fun x =>
       match filter (fun y => value_eqb (cell y ri) (cell x li)) b with
       | [] => [(x, None)]
       | ys => map (fun y => (x, Some y)) ys
       end) a.

(** [DELETE FROM t]: the table keeps its columns and loses its rows. *)
Fixpoint clear_table (name : string) (ts : list (string * table))
  : option (list (string * table)) :=
  match ts with
  | [] => None
  | (n, t) :: ts' =>
      if ieqb n name then Some ((n, mkTable (tbl_cols t) []) :: ts')
      else option_map (cons (n, t)) (clear_table name ts')
  end.

Definition delete_from (db : database) (t : string) : py database :=
  if db_ok db then
    match clear_table t (db_tables db) with
    | Some ts => Return (mkDatabase true ts)
    | None => Raise (no_such_table t)
    end
  else Raise unusable.

Fixpoint get (k : string) (r : record) : value :=
  match r with
  | [] => VNull
  | (k', v) :: r' => if String.eqb k' k then v else get k r'
  end.

End Sqlite.

Import Sqlite.

(** ** pandas: [to_timedelta], [total_seconds], [astype("Int64")], [round]

    The readers hand duration columns to pandas.  The scan of a duration
    text follows [parse_timedelta_string] character by character.  A float64
    is modelled by the rational it denotes, and a timedelta by its count of
    nanoseconds. *)

Module Pandas.

(** The paths of [to_timedelta] that only unit-suffixed texts, ISO 8601
    texts and non-text cells reach.  They are left open: every statement
    below holds whatever they do. *)
Record lib : Type := mkLib {
  timedelta_from_spec : string -> string -> string -> py Z;
  parse_iso_format_string : string -> py Z;
  convert_scalar : value -> py (option Z)
}.

Definition NPY_NAT : Z := - 2 ^ 63.

(** A C [int64_t] result: arithmetic wraps around. *)
Definition int64 (z : Z) : Z := (z + 2 ^ 63) mod 2 ^ 64 - 2 ^ 63.

Definition is_digit (c : ascii) : bool :=
  let n := nat_of_ascii c in andb (Nat.leb 48 n) (Nat.leb n 57).

Definition digit_value (c : ascii) : Z := Z.of_nat (nat_of_ascii c) - 48.

Fixpoint digits_value_from (acc : Z) (s : string) : Z :=
  match s with
  | EmptyString => acc
  | String c s' => digits_value_from (acc * 10 + digit_value c) s'
  end.

Definition digits_value (s : string) : Z := digits_value_from 0 s.

(** [<int64_t>int(''.join(number))] on a run of decimal digits. *)
Definition int_of (s : string) : py Z :=
  match s with
  | EmptyString => raise ValueError "invalid literal for int()"
  | _ =>
      let n := digits_value s in
      if n <? 2 ^ 63 then Return n
      else raise OverflowError "Python int too large to convert to C long"
  end.

Definition timedelta_as_neg (v : Z) (neg : bool) : Z :=
  if neg then - v else v.

Inductive hms : Type := UnitH | UnitM | UnitS.

(** The local variables of [parse_timedelta_string]. *)
Record scan : Type := mkScan {
  neg : bool;
  have_dot : bool;
  have_value : bool;
  have_hhmmss : bool;
  current_unit : option hms;
  result : Z;
  m : Z;
  number : string;
  frac : string;
  unit : string
}.

Definition scan0 : scan :=
  mkScan false false false false None 0 0 "" "" "".

Definition snoc (s : string) (c : ascii) : string :=
  s ++ String c EmptyString.

Definition nonempty (s : string) : bool :=
  match s with EmptyString => false | _ => true end.

Definition add_result (st : scan) (r : Z) (ng : bool) : Z :=
  int64 (result st + timedelta_as_neg r ng).

Section Scan.
Variable L : lib.

(** One turn of [for c in ts]. *)
Definition step (st : scan) (c : ascii) : py scan :=
  match st with
  | mkScan ng dot hv hh cu res mm num fr un =>
      if (Ascii.eqb c " " || Ascii.eqb c ",")%bool then Return st
      else if Ascii.eqb c "+" then Return st
      else if Ascii.eqb c "-" then
        if (ng || hv || hh)%bool
        then raise ValueError "only leading negative signs are allowed"
        else Return (mkScan true dot hv hh cu res mm num fr un)
      else if is_digit c then
        if dot then
          if nonempty un
          then Return (mkScan ng false hv hh cu res mm (snoc num c) fr un)
          else Return (mkScan ng dot hv hh cu res mm num (snoc fr c) un)
        else if negb (nonempty un)
        then Return (mkScan ng dot hv hh cu res mm (snoc num c) fr un)
        else
          r <- timedelta_from_spec L num fr un ;;
          Return (mkScan ng dot hv hh cu (add_result st r ng) mm
                    (String c EmptyString) "" "")
      else if Ascii.eqb c ":" then
        let ng' := if hv then false else ng in
        if nonempty num then
          let '(cu', mm') :=
            match cu with
            | None => (Some UnitH, 1000000000 * 3600)
            | Some UnitH => (Some UnitM, 1000000000 * 60)
            | Some UnitM => (Some UnitS, 1000000000)
            | Some UnitS => (cu, mm)
            end in
          n <- int_of num ;;
          Return (mkScan ng' dot hv true cu'
                    (add_result st (int64 (n * mm')) ng') mm' "" fr "")
        else raise ValueError "expecting hh:mm:ss format"
      else if Ascii.eqb c "." then
        if (nonempty num
            && match cu with Some _ => true | None => false end)%bool
        then
          match cu with
          | Some UnitM =>
              n <- int_of num ;;
              Return (mkScan ng true true hh cu
                        (add_result st (int64 (n * 1000000000)) ng)
                        1000000000 "" "" "")
          | _ => raise ValueError "expected hh:mm:ss format before ."
          end
        else Return (mkScan ng true hv hh cu res mm num fr un)
      else Return (mkScan ng false true hh cu res mm num fr (snoc un c))
  end.

Fixpoint run (st : scan) (ts : string) : py scan :=
  match ts with
  | EmptyString => Return st
  | String c ts' => st' <- step st c ;; run st' ts'
  end.

(** The multiplier of the digits after the decimal point. *)
Definition frac_multiplier (len : nat) : Z :=
  let l := Z.of_nat len in
  if (0 <? l) && (l <=? 3) then 10 ^ (3 - l) * 1000 * 1000
  else if (3 <? l) && (l <=? 6) then 10 ^ (6 - l) * 1000
  else if (6 <? l) && (l <=? 9) then 10 ^ (9 - l)
  else 1.

(** What follows the loop. *)
Definition finish (st : scan) : py Z :=
  if (have_dot st && nonempty (unit st))%bool then
    r <- timedelta_from_spec L (number st) (frac st) (unit st) ;;
    Return (add_result st r (neg st))
  else if have_dot st then
    if ((nonempty (number st) || nonempty (frac st))
        && negb (nonempty (unit st))
        && match current_unit st with None => true | _ => false end)%bool
    then raise ValueError "no units specified"
    else
      let len := String.length (frac st) in
      let fr := if (Nat.leb 1 len && Nat.leb len 9)%bool then frac st
                else substring 0 9 (frac st) in
      n <- int_of fr ;;
      Return (add_result st (int64 (n * frac_multiplier len)) (neg st))
  else
    match current_unit st with
    | Some UnitM =>
        n <- int_of (number st) ;;
        Return (add_result st (int64 (n * 1000000000)) (neg st))
    | Some _ => raise ValueError "expected hh:mm:ss format"
    | None =>
        if nonempty (unit st) then
          if nonempty (number st) then
            r <- timedelta_from_spec L (number st) (frac st) (unit st) ;;
            Return (add_result st r (neg st))
          else raise ValueError "unit abbreviation w/o a number"
        else if negb (nonempty (number st)) then
          raise ValueError "symbols w/o a number"
        else
          r <- timedelta_from_spec L (number st) (frac st) "ns" ;;
          Return (add_result st r (neg st))
    end.

Definition nat_strings : list string :=
  ["NaT"; "nat"; "NAT"; "nan"; "NaN"; "NAN"].

Definition parse_timedelta_string (ts : string) : py Z :=
  if (negb (nonempty ts) || existsb (String.eqb ts) nat_strings)%bool
  then Return NPY_NAT
  else st <- run scan0 ts ;; finish st.

(** The text branch of [convert_to_timedelta64]. *)
Definition convert_text (ts : string) : py Z :=
  if (startswith "P" ts || startswith "-P" ts)%bool
  then parse_iso_format_string L ts
  else parse_timedelta_string ts.

(** [errors="coerce"]: a [ValueError] gives NaT, written [None]; any
    other exception goes on. *)
Definition coerce (c : py Z) : py (option Z) :=
  match c with
  | Return z => Return (if z =? NPY_NAT then None else Some z)
  | Raise e =>
      match cls e with
      | ValueError => Return None
      | _ => Raise e
      end
  end.

Definition to_timedelta_cell (v : value) : py (option Z) :=
  match v with
  | VNull => Return None
  | VText s => coerce (convert_text s)
  | _ => convert_scalar L v
  end.

(** [pd.to_timedelta(series, errors="coerce")] *)
Definition to_timedelta (series : list value) : py (list (option Z)) :=
  mapM to_timedelta_cell series.
End Scan.

(** [.dt.total_seconds()]: a float, NaN (written [None]) for NaT. *)
Definition total_seconds (td : option Z) : option Q :=
  option_map (fun ns => ns # 1000000000) td.

(** [.astype("Int64")] on one float: NaN becomes [<NA>], a float with a
    fractional part cannot be cast. *)
Definition astype_Int64 (x : option Q) : py (option Z) :=
  match x with
  | None => Return None
  | Some q =>
      if Qeq_bool (inject_Z (Qfloor q)) q then Return (Some (Qfloor q))
      else raise TypeError
             "cannot safely cast non-equivalent float64 to int64"
  end.

(** Rounding to the nearest integer, ties to the even one. *)
Definition rint (q : Q) : Z :=
  let f := Qfloor q in
  let twice := Qfloor (2 * q) in
  if twice =? 2 * f then f
  else if Qeq_bool (inject_Z twice) (2 * q) then
    if Z.even f then f else f + 1
  else f + 1.

(** [.round(2)] on one float. *)
Definition round2 (x : option Q) : option Q :=
  option_map (fun q => rint (q * 100) # 100) x.

Definition div (x : option Q) (d : Q) : option Q :=
  option_map (fun q => q / d)%Q x.

(** [.fillna(0)] on one float. *)
Definition fillna0 (x : option Q) : Q :=
  match x with Some q => q | None => 0%Q end.

End Pandas.

(** ** JSON documents and HTTP responses *)

Module Json.

Inductive json : Type :=
| JNull
| JBool (b : bool)
| JNum (x : Q)
| JStr (s : string)
| JArr (l : list json)
| JObj (kv : list (string * json)).

(** [d.get(k)] on the items of a dict. *)
Fixpoint lookup (k : string) (kv : list (string * json)) : option json :=
  match kv with
  | [] => None
  | (k', v) :: kv' => if String.eqb k' k then Some v else lookup k kv'
  end.

(** [d[k] = v] on the items of a dict: an existing key keeps its place. *)
Fixpoint store (k : string) (v : json) (kv : list (string * json))
  : list (string * json) :=
  match kv with
  | [] => [(k, v)]
  | (k', v') :: kv' =>
      if String.eqb k' k then (k, v) :: kv' else (k', v') :: store k v kv'
  end.

(** What a handler answers: [jsonify(...)] or plain text. *)
Inductive payload : Type :=
| Jsonify (j : json)
| Text (s : string).

Record response : Type := mkResponse { status : Z; body : payload }.

Definition json_error (msg : string) (code : Z) : response :=
  mkResponse code (Jsonify (JObj [("error", JStr msg)])).

(** [request.args.get(k)]: the first value given for [k]. *)
Fixpoint args_get (k : string) (args : list (string * string))
  : option string :=
  match args with
  | [] => None
  | (k', v) :: args' => if String.eqb k' k then Some v else args_get k args'
  end.

(** [x != s] for what [args.get] gave: [None] differs from every text. *)
Definition differs (x : option string) (s : string) : bool :=
  match x with
  | Some v => negb (String.eqb v s)
  | None => true
  end.

Definition string_of_Z (n : Z) : string :=
  NilZero.string_of_int (Z.to_int n).

End Json.

Import Json.

(** ** One run of the sync tool

    Both files start the tool with [subprocess.run] and build the same
    result dict from what comes back. *)

Module Sync.

Record CompletedProcess : Type := mkCompleted {
  cp_returncode : Z;
  cp_stdout : string;
  cp_stderr : string
}.

(** One call of [subprocess.run] in a world [W]: the clock read before and
    after it ([isoformat] text and the seconds between), either a completed
    process or the exception of a launch that failed, and what the tool
    did to the world while it ran. *)
Record execution (W : Type) : Type := mkExecution {
  started : string;
  ended : string;
  elapsed : Q;
  completed : py CompletedProcess;
  effect : W -> W
}.
Arguments started {W} _.
Arguments ended {W} _.
Arguments elapsed {W} _.
Arguments completed {W} _.
Arguments effect {W} _.

Definition subprocess_run {W : Type} (x : execution W)
  : io W CompletedProcess :=
  fun w =>
    match completed x with
    | Return cp => (Return cp, effect x w)
    | Raise e => (Raise e, w)
    end.

(** The dict both files return, field by field. *)
Record SyncResult : Type := mkSyncResult {
  started_at : string;
  ended_at : string;
  duration_seconds : Q;
  returncode : Z;
  ok : bool;
  log : string;
  stdout : string;
  stderr : string
}.

Definition jsonify_result (r : SyncResult) : payload :=
  Jsonify (JObj [("started_at", JStr (started_at r));
                 ("ended_at", JStr (ended_at r));
                 ("duration_seconds", JNum (duration_seconds r));
                 ("returncode", JNum (inject_Z (returncode r)));
                 ("ok", JBool (ok r));
                 ("log", JStr (log r));
                 ("stdout", JStr (stdout r));
                 ("stderr", JStr (stderr r))]).

Definition newline : string := String (ascii_of_nat 10) EmptyString.

(** What one run adds to the update log. *)
Definition log_entry (command : list string) (cp : CompletedProcess)
  : string :=
  newline ++ "$ " ++ String.concat " " command ++ newline
  ++ cp_stdout cp ++ cp_stderr cp
  ++ newline ++ "exit=" ++ string_of_Z (cp_returncode cp) ++ newline.

Definition arguments : list string :=
  ["-a"; "-m"; "-s"; "--download"; "--import"; "--analyze"; "-l"].

End Sync.

Import Sync.

(** ** [app.py] *)

Module App.

(** The paths fixed when the module is loaded. *)
Record paths : Type := mkPaths {
  UPDATE_LOG : string;
  DB_PATH : string;
  CLI : string
}.

(** What the handlers see of the machine: the database file (when there is
    one), the update log (when it has been written) and whether the log
    can be opened for appending. *)
Record world : Type := mkWorld {
  db_file : option database;
  log_file : option string;
  log_writable : bool
}.

Definition cmd (P : paths) : list string := CLI P :: arguments.

(** [with open(UPDATE_LOG, "a") as f: f.write(...)] *)
Definition append_log (text : string) : io world unit :=
  fun w =>
    if log_writable w then
      (Return tt,
       mkWorld (db_file w)
         (Some (String.append
                  (match log_file w with Some old => old | None => "" end)
                  text))
         true)
    else (raise OSError "cannot open the update log", w).

Definition _run_update_sync (P : paths) (x : execution world)
  : io world SyncResult :=
  cp <~ subprocess_run x ;;
  _ <~ append_log (log_entry (cmd P) cp) ;;
  io_ret {| started_at := started x ++ "Z";
            ended_at := ended x ++ "Z";
            duration_seconds := elapsed x;
            returncode := cp_returncode cp;
            ok := cp_returncode cp =? 0;
            log := UPDATE_LOG P;
            stdout := cp_stdout cp;
            stderr := cp_stderr cp |}.

(** *** Schema introspection *)

Definition _table_exists (con : database) (name : string) : py bool :=
  rows <- select_master con name ;;
  Return (Nat.ltb 0 (List.length rows)).

Definition _get_columns (con : database) (table : string)
  : py (list string) :=
  try_except (pragma_table_info con table) (fun _ => Return []).

Definition contains (x : string) (l : list string) : bool :=
  existsb (String.eqb x) l.

Definition _col_exists (con : database) (table col : string) : py bool :=
  cols <- _get_columns con table ;;
  Return (contains col cols).

Definition issubset (needed cols : list string) : bool :=
  forallb (fun n => contains n cols) needed.

Definition repr (l : list string) : string :=
  "[" ++ String.concat ", " (map (fun s : string => "'" ++ s ++ "'")%string l)
  ++ "]".

(** *** Readers *)

(** The query of [fetch_daily_summary] that joins [sleep_summary]. *)
Definition daily_summary_join (con : database) : py (list record) :=
  ds <- from_table con "daily_summary" ;;
  ss <- from_table con "sleep_summary" ;;
  day <- column ds "day" ;;
  steps <- column ds "steps" ;;
  rhr <- column ds "rhr" ;;
  secs <- column ss "sleep_seconds" ;;
  sday <- column ss "day" ;;
  Return
    (map (fun p : list value * option (list value) =>
            [("date", cell (fst p) day);
             ("steps", cell (fst p) steps);
             ("restingHeartRate", cell (fst p) rhr);
             ("sleepSeconds",
              match snd p with Some y => cell y secs | None => VNull end)])
       (limit 30
          (order_by_desc
             (fun p : list value * option (list value) => cell (fst p) day)
             (left_join (tbl_rows ds) (tbl_rows ss) day sday)))).

Definition fetch_daily_summary (con : database) : py (list record) :=
  te <- _table_exists con "sleep_summary" ;;
  ce <- (if te then _col_exists con "sleep_summary" "sleep_seconds"
         else Return false) ;;
  if ce then daily_summary_join con
  else select con
         [Col "day" "date"; Col "steps" "steps";
          Col "rhr" "restingHeartRate"; NullAs "sleepSeconds"]
         "daily_summary" None "day" 30.

Section Readers.
Variable L : Pandas.lib.

Definition _to_seconds (series : list value) : py (list (option Q)) :=
  td <- Pandas.to_timedelta L series ;;
  Return (map Pandas.total_seconds td).

(** A duration of a sleep record: the text read, the seconds derived
    from it (a nullable integer) and the hours (a float, NaN written
    [None]). *)
Record duration : Type := mkDuration {
  raw : value;
  seconds : option Z;
  hours : option Q
}.

Definition no_duration : duration := mkDuration VNull None None.

Definition series (df : list record) (col : string) : list value :=
  map (get col) df.

(** The body of the loop of [fetch_sleep] for one column. *)
Definition sleep_column (df : list record) (col : string)
  : py (list duration) :=
  secs <- _to_seconds (series df col) ;;
  sec_col <- mapM Pandas.astype_Int64 secs ;;
  let hr_col := map (fun x => Pandas.round2 (Pandas.div x 3600)) secs in
  Return (map (fun t => mkDuration (fst (fst t)) (snd (fst t)) (snd t))
            (combine (combine (series df col) sec_col) hr_col)).

Record SleepRecord : Type := mkSleepRecord {
  sl_date : value;
  total_sleep : duration;
  deep_sleep : duration;
  light_sleep : duration;
  rem_sleep : duration;
  awake : duration;
  avg_spo2 : value;
  avg_rr : value;
  avg_stress : value;
  score : value;
  qualifier : value
}.

Definition sleep_items : list select_item :=
  map (fun c => Col c c)
    ["day"; "total_sleep"; "deep_sleep"; "light_sleep"; "rem_sleep";
     "awake"; "avg_spo2"; "avg_rr"; "avg_stress"; "score"; "qualifier"].

Definition fetch_sleep (con : database) (days : Z)
  : py (list SleepRecord) :=
  found <- select_master con "sleep" ;;
  match found with
  | [] => raise RuntimeError
            "No 'sleep' table found. Expected columns: day, total_sleep, deep_sleep, light_sleep, rem_sleep, awake"
  | _ :: _ =>
      df <- select con sleep_items "sleep" None "day" days ;;
      total <- sleep_column df "total_sleep" ;;
      deep <- sleep_column df "deep_sleep" ;;
      light <- sleep_column df "light_sleep" ;;
      rem <- sleep_column df "rem_sleep" ;;
      awk <- sleep_column df "awake" ;;
      Return
        (map (fun i =>
                let r := nth i df [] in
                {| sl_date := get "day" r;
                   total_sleep := nth i total no_duration;
                   deep_sleep := nth i deep no_duration;
                   light_sleep := nth i light no_duration;
                   rem_sleep := nth i rem no_duration;
                   awake := nth i awk no_duration;
                   avg_spo2 := get "avg_spo2" r;
                   avg_rr := get "avg_rr" r;
                   avg_stress := get "avg_stress" r;
                   score := get "score" r;
                   qualifier := get "qualifier" r |})
           (seq 0 (List.length df)))
  end.

Definition fetch_steps (con : database) (days : Z) : py (list record) :=
  te <- _table_exists con "daily_summary" ;;
  if negb te then raise RuntimeError "daily_summary table not found"
  else
    cols <- _get_columns con "daily_summary" ;;
    let needed := ["day"; "steps"] in
    if negb (issubset needed cols) then
      raise RuntimeError
        ("Missing columns in daily_summary: need " ++ repr needed
         ++ ", have " ++ repr cols)
    else
      let extra := if contains "step_goal" cols
                   then Col "step_goal" "step_goal"
                   else NullAs "step_goal" in
      select con [Col "day" "date"; Col "steps" "steps"; extra]
        "daily_summary" None "day" days.

Definition fetch_stress (con : database) (days : Z) : py (list record) :=
  te <- _table_exists con "daily_summary" ;;
  if negb te then raise RuntimeError "daily_summary table not found"
  else
    cols <- _get_columns con "daily_summary" ;;
    if (negb (contains "stress_avg" cols) || negb (contains "day" cols))%bool
    then
      raise RuntimeError
        ("daily_summary missing 'stress_avg' or 'day'. Columns: "
         ++ repr cols)
    else
      select con [Col "day" "date"; Col "stress_avg" "stress_avg"]
        "daily_summary" (Some "stress_avg") "day" days.

Record ExerciseRecord : Type := mkExerciseRecord {
  ex_date : value;
  moderate_activity_time : value;
  vigorous_activity_time : value;
  intensity_time_goal : value;
  moderate_activity_seconds : option Q;
  vigorous_activity_seconds : option Q;
  intensity_time_goal_seconds : option Q;
  total_activity_seconds : option Z;
  distance : value;
  calories_active : value;
  calories_total : value
}.

Definition optional (cols : list string) (c : string) : select_item :=
  if contains c cols then Col c c else NullAs c.

(** [a.fillna(0) + b.fillna(0)], row by row. *)
Definition add_filled (a b : list (option Q)) : list (option Q) :=
  map (fun p => Some (Pandas.fillna0 (fst p) + Pandas.fillna0 (snd p))%Q)
    (combine a b).

Definition fetch_exercise (con : database) (days : Z)
  : py (list ExerciseRecord) :=
  te <- _table_exists con "daily_summary" ;;
  if negb te then raise RuntimeError "daily_summary table not found"
  else
    cols <- _get_columns con "daily_summary" ;;
    let needed := ["day"; "moderate_activity_time";
                   "vigorous_activity_time"; "intensity_time_goal"] in
    if negb (issubset needed cols) then
      raise RuntimeError
        ("daily_summary missing time columns: need " ++ repr needed
         ++ ", have " ++ repr cols)
    else
      let select_bits :=
        [Col "day" "date";
         Col "moderate_activity_time" "moderate_activity_time";
         Col "vigorous_activity_time" "vigorous_activity_time";
         Col "intensity_time_goal" "intensity_time_goal";
         optional cols "distance";
         optional cols "calories_active";
         optional cols "calories_total"] in
      df <- select con select_bits "daily_summary" None "day" days ;;
      moderate <- _to_seconds (series df "moderate_activity_time") ;;
      vigorous <- _to_seconds (series df "vigorous_activity_time") ;;
      goal <- _to_seconds (series df "intensity_time_goal") ;;
      total <- mapM Pandas.astype_Int64 (add_filled moderate vigorous) ;;
      Return
        (map (fun i =>
                let r := nth i df [] in
                {| ex_date := get "date" r;
                   moderate_activity_time := get "moderate_activity_time" r;
                   vigorous_activity_time := get "vigorous_activity_time" r;
                   intensity_time_goal := get "intensity_time_goal" r;
                   moderate_activity_seconds := nth i moderate None;
                   vigorous_activity_seconds := nth i vigorous None;
                   intensity_time_goal_seconds := nth i goal None;
                   total_activity_seconds := nth i total None;
                   distance := get "distance" r;
                   calories_active := get "calories_active" r;
                   calories_total := get "calories_total" r |})
           (seq 0 (List.length df))).
End Readers.

(** *** Handlers *)

(** [POST /api/update] *)
Definition update_garmin_data (P : paths) (x : execution world)
  : io world response :=
  result <~ _run_update_sync P x ;;
  let status_code := if ok result then 200 else 500 in
  io_ret (mkResponse status_code (jsonify_result result)).

Definition not_found (P : paths) : response :=
  json_error ("Database not found at " ++ DB_PATH P) 503.

(** The statements of [erase_data] between [connect] and [commit]. *)
Fixpoint delete_all (con : database) (tables : list string) : py database :=
  match tables with
  | [] => Return con
  | t :: ts => con' <- delete_from con t ;; delete_all con' ts
  end.

(** [DELETE /api/erase] *)
Definition erase_data (P : paths) (args : list (string * string))
  : io world response :=
  fun w =>
    match db_file w with
    | None => (Return (not_found P), w)
    | Some con =>
        if differs (args_get "confirm" args) "true" then
          (Return
             (json_error "You must pass ?confirm=true to erase data" 400),
           w)
        else
          match (tables <- select_user_tables con ;;
                 con' <- delete_all con tables ;;
                 Return (tables, con')) with
          | Return (tables, con') =>
              (Return (mkResponse 200
                         (Jsonify
                            (JObj [("status", JStr "erased");
                                   ("tables_cleared",
                                    JArr (map JStr tables))]))),
               mkWorld (Some con') (log_file w) (log_writable w))
          | Raise e => (Return (json_error (str e) 500), w)
          end
    end.

(** *** The other handlers *)

(** [GET /api/update/log] *)
Definition update_log : io world response :=
  fun w =>
    match log_file w with
    | Some text => (Return (mkResponse 200 (Text text)), w)
    | None => (Return (mkResponse 404 (Text "No log yet")), w)
    end.

(** [GET /] and [GET /health] *)
Definition root : response :=
  mkResponse 200
    (Jsonify (JObj [("ok", JBool true);
                    ("msg", JStr "Backend running. Try /api/daily-summary")])).

Definition health : response := mkResponse 200 (Text "ok").

Section Endpoints.
Variable P : paths.
Variable L : Pandas.lib.

(** [jsonify(data)] for the records of a reader.  What Flask makes of each
    value, and whether it can serialize it at all, is left open. *)
Variable jsonify : forall A : Type, list A -> py payload.

(** [GET /api/daily-summary] *)
Definition daily_summary : io world response :=
  fun w =>
    match db_file w with
    | None => (Return (not_found P), w)
    | Some con =>
        (try_except
           (data <- fetch_daily_summary con ;;
            body <- jsonify _ data ;;
            Return (mkResponse 200 body))
           (fun e => Return (json_error (str e) 500)), w)
    end.

(** [GET /api/stress] *)
Definition stress_endpoint : io world response :=
  fun w =>
    match db_file w with
    | None => (Return (not_found P), w)
    | Some con =>
        (try_except
           (data <- fetch_stress con 30 ;;
            body <- jsonify _ data ;;
            Return (mkResponse 200 body))
           (fun e => Return (json_error (str e) 500)), w)
    end.

(** [GET /api/steps] *)
Definition steps : io world response :=
  fun w =>
    match db_file w with
    | None => (Return (not_found P), w)
    | Some con =>
        (try_except
           (data <- fetch_steps con 30 ;;
            body <- jsonify _ data ;;
            Return (mkResponse 200 body))
           (fun e => Return (json_error (str e) 500)), w)
    end.

(** [GET /api/exercise] *)
Definition exercise : io world response :=
  fun w =>
    match db_file w with
    | None => (Return (not_found P), w)
    | Some con =>
        (try_except
           (data <- fetch_exercise L con 30 ;;
            body <- jsonify _ data ;;
            Return (mkResponse 200 body))
           (fun e => Return (json_error (str e) 500)), w)
    end.

(** [GET /api/sleep] *)
Definition sleep : io world response :=
  fun w =>
    match db_file w with
    | None => (Return (not_found P), w)
    | Some con =>
        (try_except
           (data <- fetch_sleep L con 30 ;;
            body <- jsonify _ data ;;
            Return (mkResponse 200 body))
           (fun e => Return (json_error (str e) 500)), w)
    end.
End Endpoints.

End App.

(** ** Python operators on JSON documents *)

Module PyJson.

(** [if x:] *)
Definition truthy (x : json) : bool :=
  match x with
  | JNull => false
  | JBool b => b
  | JNum q => negb (Qeq_bool q 0)
  | JStr s => negb (String.eqb s "")
  | JArr l => match l with [] => false | _ => true end
  | JObj kv => match kv with [] => false | _ => true end
  end.

Fixpoint is_substring (k s : string) : bool :=
  if startswith k s then true
  else match s with
       | EmptyString => false
       | String _ s' => is_substring k s'
       end.

Definition is_str (k : string) (x : json) : bool :=
  match x with JStr s => String.eqb s k | _ => false end.

(** [k in x] for a text [k]: a key of a dict, an element of a list, a
    part of a text; anything else is not iterable. *)
Definition contains (k : string) (x : json) : py bool :=
  match x with
  | JObj kv =>
      Return (match lookup k kv with Some _ => true | None => false end)
  | JArr l => Return (existsb (is_str k) l)
  | JStr s => Return (is_substring k s)
  | _ => raise TypeError "argument is not iterable"
  end.

(** [x[k]] for a text [k] *)
Definition getitem (x : json) (k : string) : py json :=
  match x with
  | JObj kv =>
      match lookup k kv with
      | Some v => Return v
      | None => raise KeyError k
      end
  | _ => raise TypeError "indices must be integers"
  end.

(** [x[k] = v] for a text [k] *)
Definition setitem (x : json) (k : string) (v : json) : py json :=
  match x with
  | JObj kv => Return (JObj (store k v kv))
  | _ => raise TypeError "object does not support item assignment"
  end.

(** [x.setdefault(k, d)], for the dict it leaves behind. *)
Definition setdefault (x : json) (k : string) (d : json) : py json :=
  match x with
  | JObj kv =>
      match lookup k kv with
      | Some _ => Return x
      | None => Return (JObj (store k d kv))
      end
  | _ => raise AttributeError "object has no attribute 'setdefault'"
  end.

End PyJson.

(** ** [routes.py] *)

Module Routes.

(** An entry of the data root.  [removable = false] stands for an entry
    that [unlink] or [rmtree] cannot remove. *)
Inductive entry : Type :=
| File (name : string) (content : string) (removable : bool)
| Dir (name : string) (children : list entry) (removable : bool).

Definition can_remove (e : entry) : bool :=
  match e with File _ _ r => r | Dir _ _ r => r end.

(** What the handlers see of the machine: the entries of [DATA_ROOT] (when
    the folder exists), the cached session next to the config file (when
    there is one, with whether it can be removed), the update log, and the
    rest, [config_state], which only the config module reads and writes. *)
Record world (C : Type) : Type := mkWorld {
  data_root : option (list entry);
  garth_session : option bool;
  log_file : option string;
  log_writable : bool;
  config_state : C
}.
Arguments mkWorld {C} _ _ _ _ _.
Arguments data_root {C} _.
Arguments garth_session {C} _.
Arguments log_file {C} _.
Arguments log_writable {C} _.
Arguments config_state {C} _.

Section Handlers.
(** What [config.py] provides: its paths and the two functions that read
    and write the persisted document. *)
Context {C : Type}.
Variables UPDATE_LOG DATA_ROOT CLI : string.
Variable read_cfg : io (world C) json.
Variable write_cfg : json -> io (world C) unit.

Definition _json_error (msg : string) (status : Z) : response :=
  json_error msg status.

Definition append_log (text : string) : io (world C) unit :=
  fun w =>
    if log_writable w then
      (Return tt,
       mkWorld (data_root w) (garth_session w)
         (Some (String.append
                  (match log_file w with Some old => old | None => "" end)
                  text))
         true (config_state w))
    else (raise OSError "cannot open the update log", w).

Definition _run_garmindb (x : execution (world C))
  : io (world C) SyncResult :=
  let cmd := CLI :: arguments in
  cp <~ subprocess_run x ;;
  _ <~ append_log (log_entry cmd cp) ;;
  io_ret {| started_at := started x ++ "Z";
            ended_at := ended x ++ "Z";
            duration_seconds := elapsed x;
            returncode := cp_returncode cp;
            ok := cp_returncode cp =? 0;
            log := UPDATE_LOG;
            stdout := cp_stdout cp;
            stderr := cp_stderr cp |}.

(** [GET /api/config] *)
Definition get_config : io (world C) response :=
  cfg <~ read_cfg ;;
  cfg' <~ io_lift
    (has_credentials <- PyJson.contains "credentials" cfg ;;
     has_password <-
       (if has_credentials
        then credentials <- PyJson.getitem cfg "credentials" ;;
             PyJson.contains "password" credentials
        else Return false) ;;
     if has_password
     then credentials <- PyJson.getitem cfg "credentials" ;;
          credentials' <- PyJson.setitem credentials "password" (JStr "") ;;
          PyJson.setitem cfg "credentials" credentials'
     else Return cfg) ;;
  io_ret (mkResponse 200 (Jsonify cfg')).

(** [garth_session.unlink()] *)
Definition unlink_session : io (world C) unit :=
  fun w =>
    match garth_session w with
    | Some true =>
        (Return tt,
         mkWorld (data_root w) None (log_file w) (log_writable w)
           (config_state w))
    | Some false => (raise OSError "cannot remove garth_session", w)
    | None => (raise OSError "no such file: garth_session", w)
    end.

Definition session_exists : io (world C) bool :=
  fun w => (Return (match garth_session w with
                    | Some _ => true
                    | None => false
                    end), w).

(** [for k in keys: if k in payload[section]:
       cfg[section][k] = payload[section][k]] *)
Fixpoint copy_keys (section : string) (keys : list string)
    (payload cfg : json) : py json :=
  match keys with
  | [] => Return cfg
  | k :: keys' =>
      given <- PyJson.getitem payload section ;;
      present <- PyJson.contains k given ;;
      cfg' <- (if present
               then v <- PyJson.getitem given k ;;
                    mine <- PyJson.getitem cfg section ;;
                    mine' <- PyJson.setitem mine k v ;;
                    PyJson.setitem cfg section mine'
               else Return cfg) ;;
      copy_keys section keys' payload cfg'
  end.

Definition merge_section (section : string) (keys : list string)
    (payload cfg : json) : py json :=
  has <- PyJson.contains section payload ;;
  if has
  then cfg' <- PyJson.setdefault cfg section (JObj []) ;;
       copy_keys section keys payload cfg'
  else Return cfg.

Definition merge_domain (payload cfg : json) : py json :=
  has <- PyJson.contains "garmin" payload ;;
  has_domain <-
    (if has
     then garmin <- PyJson.getitem payload "garmin" ;;
          PyJson.contains "domain" garmin
     else Return false) ;;
  if has_domain
  then cfg' <- PyJson.setdefault cfg "garmin" (JObj []) ;;
       garmin <- PyJson.getitem payload "garmin" ;;
       domain <- PyJson.getitem garmin "domain" ;;
       mine <- PyJson.getitem cfg' "garmin" ;;
       mine' <- PyJson.setitem mine "domain" domain ;;
       PyJson.setitem cfg' "garmin" mine'
  else Return cfg.

(** [POST /api/config]; [request_json] is what
    [request.get_json(silent=True)] gives. *)
Definition update_config (request_json : option json)
  : io (world C) response :=
  dropped <~ io_try
    (there <~ session_exists ;;
     if there : bool
     then io_try (_ <~ unlink_session ;; io_ret None)
            (fun e => io_ret (Some (_json_error (str e) 500)))
     else io_ret None)
    (fun e => io_ret (Some (_json_error (str e) 500))) ;;
  match dropped with
  | Some failure => io_ret failure
  | None =>
      let payload :=
        match request_json with
        | Some j => if PyJson.truthy j then j else JObj []
        | None => JObj []
        end in
      cfg <~ read_cfg ;;
      cfg' <~ io_lift
        (c1 <- merge_section "credentials"
                 ["user"; "password"; "secure_password"; "password_file"]
                 payload cfg ;;
         c2 <- merge_section "data"
                 ["weight_start_date"; "sleep_start_date";
                  "rhr_start_date"; "monitoring_start_date";
                  "download_latest_activities"; "download_all_activities"]
                 payload c1 ;;
         merge_domain payload c2) ;;
      _ <~ write_cfg cfg' ;;
      io_ret (mkResponse 200 (Jsonify (JObj [("ok", JBool true)])))
  end.

(** [POST /api/update] *)
Definition update_garmin_data (request_json : option json)
    (x : execution (world C)) : io (world C) response :=
  _ <~ update_config request_json ;;
  result <~ _run_garmindb x ;;
  io_ret (mkResponse (if ok result then 200 else 500)
            (jsonify_result result)).

(** [for item in target.iterdir(): ...]: the entries are removed one
    after the other; the first that cannot be removed raises and stays,
    with those after it. *)
Fixpoint remove_entries (items : list entry) : py unit * list entry :=
  match items with
  | [] => (Return tt, [])
  | item :: rest =>
      if can_remove item then remove_entries rest
      else (raise OSError "cannot remove an entry", items)
  end.

Definition clear_root : io (world C) unit :=
  fun w =>
    match data_root w with
    | Some items =>
        let '(r, remaining) := remove_entries items in
        (r, mkWorld (Some remaining) (garth_session w) (log_file w)
              (log_writable w) (config_state w))
    | None => (raise OSError "no such directory", w)
    end.

(** [DELETE /api/erase] *)
Definition erase_data (args : list (string * string))
  : io (world C) response :=
  fun w =>
    match data_root w with
    | None =>
        (Return (_json_error
                   ("No HealthData folder found at " ++ DATA_ROOT) 503), w)
    | Some _ =>
        if differs (args_get "confirm" args) "true" then
          (Return
             (_json_error
                "You must pass ?confirm=true to erase all data" 400), w)
        else
          io_try
            (_ <~ clear_root ;;
             there <~ session_exists ;;
             failed <~
               (if there : bool
                then io_try (_ <~ unlink_session ;; io_ret None)
                       (fun e => io_ret (Some (_json_error (str e) 500)))
                else io_ret None) ;;
             match failed with
             | Some failure => io_ret failure
             | None =>
                 io_ret
                   (mkResponse 200
                      (Jsonify
                         (JObj [("status", JStr "erased_all_contents");
                                ("path_cleared", JStr DATA_ROOT)])))
             end)
            (fun e => io_ret (_json_error (str e) 500)) w
    end.
(** [GET /api/update/log] *)
Definition update_log : io (world C) response :=
  fun w =>
    match log_file w with
    | Some text => (Return (mkResponse 200 (Text text)), w)
    | None => (Return (mkResponse 404 (Text "No log yet")), w)
    end.
End Handlers.

End Routes.

(** ** Vocabulary of the statements *)

Module Spec.

(** A sequence in descending order of [date]: each record's date is at
    least the date of the record after it. *)
Definition descending {A : Type} (date : A -> value) (l : list A) : Prop :=
  forall i a b,
    nth_error l i = Some a -> nth_error l (S i) = Some b ->
    value_leb (date b) (date a) = true.

(** The rows of [daily_summary] that carry a stress reading, as the
    records the stress reader makes of them. *)
Definition stress_rows (con : database) : list record :=
  match find_table "daily_summary" (db_tables con) with
  | Some tb =>
      match col_index "day" (tbl_cols tb),
            col_index "stress_avg" (tbl_cols tb) with
      | Some d, Some s =>
          map (fun r => [("date", cell r d); ("stress_avg", cell r s)])
            (filter (fun r => negb (is_null (cell r s))) (tbl_rows tb))
      | _, _ => []
      end
  | None => []
  end.

(** The rows with a stress reading among the [days] most recent rows of
    [daily_summary]. *)
Definition stress_in_window (con : database) (days : Z)
  : list (list value) :=
  match find_table "daily_summary" (db_tables con) with
  | Some tb =>
      match col_index "day" (tbl_cols tb),
            col_index "stress_avg" (tbl_cols tb) with
      | Some d, Some s =>
          filter (fun r => negb (is_null (cell r s)))
            (limit days (order_by_desc (fun r => cell r d) (tbl_rows tb)))
      | _, _ => []
      end
  | None => []
  end.

(** A duration text [HH:MM:SS]: three runs of decimal digits. *)
Fixpoint all_digits (s : string) : bool :=
  match s with
  | EmptyString => true
  | String c s' => andb (Pandas.is_digit c) (all_digits s')
  end.

Definition field (s : string) : Prop :=
  s <> EmptyString /\ all_digits s = true.

Definition hms_text (h m s : string) : string :=
  h ++ ":" ++ m ++ ":" ++ s.

Definition hms_seconds (h m s : string) : Z :=
  Pandas.digits_value h * 3600 + Pandas.digits_value m * 60
  + Pandas.digits_value s.

(** A text pandas cannot parse as a duration: the parse ends in a
    [ValueError]. *)
Definition unparsable (L : Pandas.lib) (t : string) : Prop :=
  exists msg, Pandas.convert_text L t = raise ValueError msg.

(** [x] is [q] rounded to two decimals. *)
Definition rounded_2 (x q : Q) : Prop :=
  exists c : Z,
    x = c # 100 /\ (q - (1 # 200) <= x)%Q /\ (x <= q + (1 # 200))%Q.

(** A duration text whose count of nanoseconds fits the 64 bits pandas
    keeps it in; fields of at most two digits always do. *)
Definition fits (h m s : string) : Prop :=
  (String.length h <= 2 /\ String.length m <= 2 /\ String.length s <= 2)%nat
  \/ hms_seconds h m s * 1000000000 < 2 ^ 63.

(** What time normalization promises of one cell [v] and the duration [d]
    derived from it. *)
Definition normalized (L : Pandas.lib) (v : value) (d : App.duration)
  : Prop :=
  App.raw d = v /\
  (forall h m s,
      v = VText (hms_text h m s) ->
      field h -> field m -> field s -> fits h m s ->
      App.seconds d = Some (hms_seconds h m s)) /\
  (forall t,
      v = VText t -> t = "" \/ unparsable L t ->
      App.seconds d = None /\ App.hours d = None) /\
  match App.seconds d with
  | Some n =>
      exists x, App.hours d = Some x /\ rounded_2 x (inject_Z n / 3600)
  | None => App.hours d = None
  end.

(** A cell that is null, or a text that is empty, unparsable or of the
    form [HH:MM:SS]. *)
Definition plain (L : Pandas.lib) (v : value) : Prop :=
  v = VNull \/
  exists t,
    v = VText t /\
    (t = "" \/ unparsable L t \/
     exists h m s,
       t = hms_text h m s /\ field h /\ field m /\ field s /\ fits h m s).

(** The result dict of a run whose process completed, and the response
    the update handlers make of it. *)
Definition result_of (log : string) {W : Type} (x : execution W)
    (cp : CompletedProcess) : SyncResult :=
  {| started_at := started x ++ "Z";
     ended_at := ended x ++ "Z";
     duration_seconds := elapsed x;
     returncode := cp_returncode cp;
     ok := cp_returncode cp =? 0;
     log := log;
     stdout := cp_stdout cp;
     stderr := cp_stderr cp |}.

Definition answer (r : SyncResult) : response :=
  mkResponse (if ok r then 200 else 500) (jsonify_result r).

(** A member of a JSON object. *)
Definition member (k : string) (x : json) : option json :=
  match x with
  | JObj kv => lookup k kv
  | _ => None
  end.

(** An HTTP status that reports an error. *)
Definition is_error (r : response) : Prop := 400 <= status r.

End Spec.

Import Spec.

(** ** Sample worlds *)

Module Sample.

(** A pandas whose open paths all refuse their input. *)
Definition strict : Pandas.lib :=
  Pandas.mkLib (fun _ _ _ => raise ValueError "invalid unit abbreviation")
    (fun _ => raise ValueError "Invalid ISO 8601 Duration format")
    (fun _ => raise TypeError "Invalid type for timedelta scalar").

Definition daily_cols : list string :=
  ["day"; "steps"; "rhr"; "stress_avg"; "step_goal";
   "moderate_activity_time"; "vigorous_activity_time";
   "intensity_time_goal"; "distance"; "calories_active"; "calories_total"].

Definition daily_row (day : string) (stress moderate vigorous : value)
  : list value :=
  [VText day; VInt 8000; VInt 52; stress; VInt 10000;
   moderate; vigorous; VText "02:30:00"; VReal (5 # 2); VInt 400; VInt 2300].

Definition daily_summary : table :=
  mkTable daily_cols
    [daily_row "2024-03-01" (VInt 31) (VText "00:20:00") (VText "00:05:30");
     daily_row "2024-03-03" VNull VNull (VText "00:10:00");
     daily_row "2024-03-02" (VInt 44) VNull VNull].

Definition sleep : table :=
  mkTable ["day"; "total_sleep"; "deep_sleep"; "light_sleep"; "rem_sleep";
           "awake"; "avg_spo2"; "avg_rr"; "avg_stress"; "score";
           "qualifier"]
    [[VText "2024-03-01"; VText "07:30:15"; VText "01:10:00";
      VText "04:20:15"; VText "02:00:00"; VText "not a time";
      VReal (95 # 1); VReal (14 # 1); VInt 20; VInt 81; VText "GOOD"];
     [VText "2024-03-02"; VText ""; VNull; VText "03:00:18";
      VText "01:30:00"; VText "00:12:00";
      VNull; VNull; VNull; VNull; VNull]].

Definition sleep_summary : table :=
  mkTable ["day"; "sleep_seconds"]
    [[VText "2024-03-01"; VInt 27015]].

Definition garmin_db : database :=
  mkDatabase true
    [("daily_summary", daily_summary); ("sleep", sleep);
     ("sleep_summary", sleep_summary)].

(** A frame with one duration column: a good text, a bad one, an empty one
    and a null. *)
Definition naps : list record :=
  [[("awake", VText "07:30:15")]; [("awake", VText "not a time")];
   [("awake", VText "")]; [("awake", VNull)]].

Definition two_digits (n : nat) : string :=
  (if Nat.ltb n 10 then "0" else "") ++ string_of_Z (Z.of_nat n).

(** Thirty-one days of January, each with a stress reading, followed by a
    first of February without one. *)
Definition winter : database :=
  mkDatabase true
    [("daily_summary",
      mkTable ["day"; "steps"; "stress_avg"]
        (map (fun d => [VText ("2024-01-" ++ two_digits d); VInt 7000;
                        VInt (Z.of_nat (20 + d))])
           (seq 1 31)
         ++ [[VText "2024-02-01"; VInt 6500; VNull]]))].

Definition paths : App.paths :=
  App.mkPaths "/srv/app/update.log" "/home/u/HealthData/DBs/garmin.db"
    "/usr/bin/garmindb_cli.py".

Definition world : App.world := App.mkWorld (Some garmin_db) None true.

(** A run of the tool that starts and exits with [code]. *)
Definition exits {W : Type} (code : Z) (err : string) : execution W :=
  mkExecution W "2024-03-03T10:00:00" "2024-03-03T10:00:05" (5 # 1)
    (Return (mkCompleted code "" err)) (fun w => w).

(** A run that cannot start. *)
Definition fails_to_start {W : Type} : execution W :=
  mkExecution W "2024-03-03T10:00:00" "2024-03-03T10:00:00" (0 # 1)
    (raise OSError "No such file or directory: garmindb_cli.py")
    (fun w => w).

(** The world of [routes.py]; the config module keeps its document in
    [config_state]. *)
Definition stored_config : json :=
  JObj [("credentials",
         JObj [("user", JStr "me@example.org");
               ("password", JStr "hunter2")]);
        ("garmin", JObj [("domain", JStr "garmin.com")])].

Definition data_root : list Routes.entry :=
  [Routes.Dir "DBs" [Routes.File "garmin.db" "SQLite format 3" true] true;
   Routes.File "notes.txt" "kept" true].

Definition routes_world : Routes.world json :=
  Routes.mkWorld (Some data_root) (Some true) None true stored_config.

(** Modelled from the spec: [read_cfg] and [write_cfg] of [config.py], which
    is not among the sources.  The persisted document is read as it is and
    replaced whole. *)
Definition read_cfg : io (Routes.world json) json :=
  fun w => (Return (Routes.config_state w), w).

Definition write_cfg (cfg : json) : io (Routes.world json) unit :=
  fun w =>
    (Return tt,
     Routes.mkWorld (Routes.data_root w) (Routes.garth_session w)
       (Routes.log_file w) (Routes.log_writable w) cfg).

End Sample.

(** ** Vocabulary of the further statements *)

Module More.

(** The names of the tables of a database, as [sqlite_master] lists them. *)
Definition table_names (con : database) : list string :=
  map fst (db_tables con).



(** The keys of a record, in order. *)
Definition keys (r : record) : list string := map fst r.


(** The name a select item gives its column in the result. *)
Definition alias (it : select_item) : string :=
  match it with Col _ a => a | NullAs a => a end.

(** The cached session once [unlink] has removed it. *)
Definition without_session {C : Type} (w : Routes.world C) : Routes.world C :=
  Routes.mkWorld (Routes.data_root w) None (Routes.log_file w)
    (Routes.log_writable w) (Routes.config_state w).

(** The world once the tool has run and [text] is appended to the log. *)
Definition logged {C : Type} (text : string) (w : Routes.world C)
  : Routes.world C :=
  Routes.mkWorld (Routes.data_root w) (Routes.garth_session w)
    (Some (String.append
             (match Routes.log_file w with Some old => old | None => "" end)
             text))
    true (Routes.config_state w).

Definition credentials_keys : list string :=
  ["user"; "password"; "secure_password"; "password_file"].

Definition data_keys : list string :=
  ["weight_start_date"; "sleep_start_date"; "rhr_start_date";
   "monitoring_start_date"; "download_latest_activities";
   "download_all_activities"].

(** [request.get_json(silent=True) or {}] *)
Definition payload_of (request_json : option json) : json :=
  match request_json with
  | Some j => if PyJson.truthy j then j else JObj []
  | None => JObj []
  end.

(** The three merges of [update_config], one after the other. *)
Definition merged (payload cfg : json) : py json :=
  c1 <- Routes.merge_section "credentials" credentials_keys payload cfg ;;
  c2 <- Routes.merge_section "data" data_keys payload c1 ;;
  Routes.merge_domain payload c2.

(** The recognized keys of a section of the config document. *)
Definition recognized (section key : string) : bool :=
  (String.eqb section "credentials" && App.contains key credentials_keys)
  || (String.eqb section "data" && App.contains key data_keys)
  || (String.eqb section "garmin" && String.eqb key "domain").

(** [x[section][key]], when both are there. *)
Definition member2 (section key : string) (x : json) : option json :=
  match member section x with
  | Some y => member key y
  | None => None
  end.

(** [cfg'] agrees with [cfg] on every member outside [section], and inside
    it on every member not among [keys]. *)
Definition untouched_outside (section : string) (keys : list string)
    (cfg cfg' : json) : Prop :=
  (forall k, k <> section -> member k cfg' = member k cfg) /\
  (forall s j, s <> section \/ ~ In j keys ->
               member2 s j cfg' = member2 s j cfg).

(** A run of the tool that leaves the update log alone. *)
Definition leaves_log_alone (x : execution App.world) : Prop :=
  forall w,
    App.log_file (effect x w) = App.log_file w /\
    App.log_writable (effect x w) = App.log_writable w.

(** The text of the log, empty when there is no log yet. *)
Definition log_text (w : App.world) : string :=
  match App.log_file w with Some old => old | None => "" end.

(** The five metric endpoints of [app.py]. *)
Definition metric_endpoints (P : App.paths) (L : Pandas.lib)
    (jsonify : forall A : Type, list A -> py payload)
  : list (io App.world response) :=
  [App.daily_summary P jsonify; App.stress_endpoint P jsonify;
   App.steps P jsonify; App.exercise P L jsonify; App.sleep P L jsonify].

(** The response [{"ok": true}] of [update_config]. *)
Definition config_ok : response :=
  mkResponse 200 (Jsonify (JObj [("ok", JBool true)])).

(** The seconds pandas derives from one cell of a duration column of the
    exercise reader. *)
Definition seconds_of (L : Pandas.lib) (raw : value) (secs : option Q)
  : Prop :=
  exists td,
    Pandas.to_timedelta_cell L raw = Return td /\
    secs = Pandas.total_seconds td.

(** A database whose [daily_summary] has the time columns and nothing
    else. *)
Definition bare : database :=
  mkDatabase true
    [("daily_summary",
      mkTable ["day"; "moderate_activity_time"; "vigorous_activity_time";
               "intensity_time_goal"]
        [[VText "2024-03-01"; VText "00:20:00"; VNull; VText "02:30:00"];
         [VText "2024-03-02"; VText "00:10:00"; VText "00:05:30"; VNull];
         [VText "2024-03-03"; VNull; VNull; VNull]])].





(** A database that has the daily rows and no sleep tables. *)
Definition days_only : database :=
  mkDatabase true [("daily_summary", Sample.daily_summary)].

End More.

Import More.

(** * Facts *)

(** Push [inject_Z] through sums and products of integer constants. *)
Ltac push_inject :=
  rewrite ?inject_Z_plus, ?inject_Z_mult;
  change (inject_Z 2) with 2%Q; change (inject_Z 1) with 1%Q.

Ltac push_inject_in H :=
  rewrite ?inject_Z_plus, ?inject_Z_mult in H;
  change (inject_Z 2) with 2%Q in H; change (inject_Z 1) with 1%Q in H.

(** ** The error monad *)

Module PyFacts.

Lemma bind_Return {A B : Type} (c : py A) (k : A -> py B) (b : B) :
  Py.bind c k = Return b -> exists a, c = Return a /\ k a = Return b.
Proof.
  destruct c as [a|e]; simpl; intros H; [eauto | discriminate].
Qed.

Lemma mapM_Forall2 {A B : Type} (f : A -> py B) :
  forall l l', mapM f l = Return l' ->
               Forall2 (fun x y => f x = Return y) l l'.
Proof.
  induction l as [|x xs IH]; simpl; intros l' H.
  - injection H as <-. constructor.
  - apply bind_Return in H as (y & Hy & H).
    apply bind_Return in H as (ys & Hys & H).
    injection H as <-. constructor; auto.
Qed.

Lemma Forall2_nth_error {A B : Type} (R : A -> B -> Prop) :
  forall l l', Forall2 R l l' ->
  forall i a b, nth_error l i = Some a -> nth_error l' i = Some b -> R a b.
Proof.
  induction 1 as [|x y xs ys Hxy _ IH]; intros [|i] a b Ha Hb;
    simpl in *; try discriminate.
  - injection Ha as <-. injection Hb as <-. exact Hxy.
  - eauto.
Qed.

Lemma Forall2_length_eq {A B : Type} (R : A -> B -> Prop) :
  forall l l', Forall2 R l l' -> List.length l = List.length l'.
Proof. induction 1; simpl; congruence. Qed.

End PyFacts.

(** ** ORDER BY, LIMIT and SELECT *)

Module SqliteFacts.

Lemma Qle_bool_total (x y : Q) :
  Qle_bool x y = true \/ Qle_bool y x = true.
Proof.
  destruct (Qlt_le_dec y x) as [H|H].
  - right. apply Qle_bool_iff, Qlt_le_weak, H.
  - left. apply Qle_bool_iff, H.
Qed.

Lemma value_leb_total (a b : value) :
  value_leb a b = true \/ value_leb b a = true.
Proof.
  destruct a, b; unfold value_leb; simpl;
    auto using Qle_bool_total, String.leb_total.
Qed.

Section Order.
Context {A : Type} (key : A -> value).

Lemma insert_desc_perm (x : A) (l : list A) :
  Permutation (x :: l) (insert_desc key x l).
Proof.
  induction l as [|y l IH]; simpl; [reflexivity|].
  destruct (value_leb (key y) (key x)); [reflexivity|].
  rewrite perm_swap. now apply perm_skip.
Qed.

Lemma order_by_desc_perm (l : list A) :
  Permutation l (order_by_desc key l).
Proof.
  induction l as [|x l IH]; simpl; [reflexivity|].
  rewrite <- insert_desc_perm. now apply perm_skip.
Qed.

Lemma insert_desc_hd (x y : A) (l : list A) :
  desc key y x -> HdRel (desc key) y l ->
  HdRel (desc key) y (insert_desc key x l).
Proof.
  intros Hyx Hl. destruct l as [|z l]; simpl.
  - constructor. exact Hyx.
  - destruct (value_leb (key z) (key x)); constructor.
    + exact Hyx.
    + now inversion Hl.
Qed.

Lemma insert_desc_sorted (x : A) (l : list A) :
  Sorted (desc key) l -> Sorted (desc key) (insert_desc key x l).
Proof.
  induction 1 as [|y l Hs IH Hhd]; simpl.
  - repeat constructor.
  - destruct (value_leb (key y) (key x)) eqn:E.
    + constructor; [constructor; assumption|]. constructor. exact E.
    + constructor; [exact IH|].
      apply insert_desc_hd; [|exact Hhd].
      unfold desc.
      destruct (value_leb_total (key x) (key y)); congruence.
Qed.

Lemma order_by_desc_sorted (l : list A) :
  Sorted (desc key) (order_by_desc key l).
Proof.
  induction l; simpl; [constructor | now apply insert_desc_sorted].
Qed.

Lemma firstn_sorted (n : nat) (l : list A) :
  Sorted (desc key) l -> Sorted (desc key) (firstn n l).
Proof.
  intros H. revert n.
  induction H as [|y l Hs IH Hhd]; intros [|n]; simpl;
    try constructor.
  - apply IH.
  - destruct Hhd; destruct n; simpl; constructor. assumption.
Qed.

Lemma limit_sorted (n : Z) (l : list A) :
  Sorted (desc key) l -> Sorted (desc key) (limit n l).
Proof.
  intros H. unfold limit. destruct (n <? 0); auto using firstn_sorted.
Qed.

Lemma sorted_descending {B : Type} (f : A -> B) (date : B -> value) :
  (forall r, date (f r) = key r) ->
  forall l, Sorted (desc key) l -> descending date (map f l).
Proof.
  intros Hd l H.
  induction H as [|y l Hs IH Hhd]; intros i a b Ha Hb.
  - destruct i; discriminate.
  - destruct i as [|i]; simpl in Ha, Hb.
    + injection Ha as <-. destruct Hhd as [|z l Hyz]; simpl in Hb.
      * discriminate.
      * injection Hb as <-. rewrite !Hd. exact Hyz.
    + eapply IH; eassumption.
Qed.
End Order.

Lemma limit_length {A : Type} (n : Z) (l : list A) :
  0 <= n -> Z.of_nat (List.length (limit n l)) <= n.
Proof.
  intros Hn. unfold limit.
  destruct (n <? 0) eqn:E; [apply Z.ltb_lt in E; lia|].
  rewrite length_firstn. lia.
Qed.

Lemma limit_length_exact {A : Type} (n : Z) (l : list A) :
  List.length (limit n l)
  = if n <? 0 then List.length l
    else Nat.min (Z.to_nat n) (List.length l).
Proof.
  unfold limit. destruct (n <? 0); [reflexivity | apply length_firstn].
Qed.

Lemma limit_all {A : Type} (n : Z) (l : list A) :
  n < 0 \/ Z.of_nat (List.length l) <= n -> limit n l = l.
Proof.
  intros H. unfold limit.
  destruct (n <? 0) eqn:E; [reflexivity|].
  apply Z.ltb_ge in E. apply firstn_all2. lia.
Qed.

Lemma limit_incl {A : Type} (n : Z) (l : list A) : incl (limit n l) l.
Proof.
  unfold limit. destruct (n <? 0); [apply incl_refl|].
  intros x Hx. rewrite <- (firstn_skipn (Z.to_nat n) l).
  apply in_or_app. now left.
Qed.

(** What a SELECT that answers has computed. *)
Lemma select_Return (con : database) items t w o n recs :
  select con items t w o n = Return recs ->
  exists tb sel keep oi,
    from_table con t = Return tb /\
    mapM (resolve tb) items = Return sel /\
    column tb o = Return oi /\
    match w with
    | Some c => exists i, column tb c = Return i /\
                          keep = (fun r => negb (is_null (cell r i)))
    | None => keep = (fun _ => true)
    end /\
    recs = map (project sel)
             (limit n (order_by_desc (fun r => cell r oi)
                         (filter keep (tbl_rows tb)))).
Proof.
  unfold select. intros H.
  apply PyFacts.bind_Return in H as (tb & Htb & H).
  apply PyFacts.bind_Return in H as (sel & Hsel & H).
  apply PyFacts.bind_Return in H as (keep & Hkeep & H).
  apply PyFacts.bind_Return in H as (oi & Ho & H).
  injection H as <-.
  exists tb, sel, keep, oi. repeat split; auto.
  destruct w as [c|].
  - apply PyFacts.bind_Return in Hkeep as (i & Hi & Hk).
    injection Hk as <-. eauto.
  - now injection Hkeep as <-.
Qed.

End SqliteFacts.

(** ** The readers of [app.py] *)

Module AppFacts.

Import SqliteFacts PyFacts.

Lemma get_project_head a i sel r :
  get a (project ((a, Some i) :: sel) r) = cell r i.
Proof. simpl. now rewrite String.eqb_refl. Qed.

Lemma map_seq_nth {A B : Type} (g : A -> B) (d : A) :
  forall (l : list A) (k : nat),
    map (fun i => g (nth (i - k) l d)) (seq k (List.length l)) = map g l.
Proof.
  induction l as [|x xs IH]; intros k; simpl; [reflexivity|].
  rewrite Nat.sub_diag. f_equal.
  rewrite <- (IH (S k)). apply map_ext_in. intros i Hi.
  apply in_seq in Hi.
  replace (i - k)%nat with (S (i - S k)) by lia. reflexivity.
Qed.

Lemma map_range_nth {A B : Type} (g : A -> B) (d : A) (l : list A) :
  map (fun i => g (nth i l d)) (seq 0 (List.length l)) = map g l.
Proof.
  rewrite <- (map_seq_nth g d l 0). apply map_ext. intros i.
  now rewrite Nat.sub_0_r.
Qed.

Lemma descending_map {A : Type} (date : A -> value) (l : list A) :
  descending (fun v => v) (map date l) -> descending date l.
Proof.
  intros H i a b Ha Hb. apply (H i).
  - now rewrite nth_error_map, Ha.
  - now rewrite nth_error_map, Hb.
Qed.

(** A SELECT whose first item is the column it orders by answers with a
    descending sequence that keeps to its LIMIT. *)
Lemma select_window con o a items t w n recs :
  select con (Col o a :: items) t w o n = Return recs ->
  descending (get a) recs /\
  (0 <= n -> Z.of_nat (List.length recs) <= n).
Proof.
  intros H.
  apply select_Return in H as (tb & sel & keep & oi & _ & Hsel & Ho & _ & ->).
  simpl in Hsel.
  apply bind_Return in Hsel as ([a' i] & Hres & Hsel).
  apply bind_Return in Hres as (i' & Hi' & Hres).
  injection Hres as <- <-.
  apply bind_Return in Hsel as (sel' & _ & Hsel).
  injection Hsel as <-.
  assert (i' = oi) as -> by congruence.
  split.
  - apply (sorted_descending (fun r => cell r oi)).
    + intros r. apply get_project_head.
    + apply limit_sorted, order_by_desc_sorted.
  - intros Hn. rewrite length_map. now apply limit_length.
Qed.

Lemma daily_summary_join_window con recs :
  App.daily_summary_join con = Return recs ->
  descending (get "date") recs /\ Z.of_nat (List.length recs) <= 30.
Proof.
  unfold App.daily_summary_join. intros H.
  apply bind_Return in H as (ds & _ & H).
  apply bind_Return in H as (ss & _ & H).
  apply bind_Return in H as (day & _ & H).
  apply bind_Return in H as (steps & _ & H).
  apply bind_Return in H as (rhr & _ & H).
  apply bind_Return in H as (secs & _ & H).
  apply bind_Return in H as (sday & _ & H).
  injection H as <-. split.
  - apply (sorted_descending
             (fun p : list value * option (list value) => cell (fst p) day)).
    + reflexivity.
    + apply limit_sorted, order_by_desc_sorted.
  - rewrite length_map. apply limit_length. lia.
Qed.

Lemma fetch_daily_summary_window con recs :
  App.fetch_daily_summary con = Return recs ->
  descending (get "date") recs /\ Z.of_nat (List.length recs) <= 30.
Proof.
  unfold App.fetch_daily_summary. intros H.
  apply bind_Return in H as (te & _ & H).
  apply bind_Return in H as (ce & _ & H).
  destruct ce.
  - now apply (daily_summary_join_window con).
  - apply select_window in H as [Hd Hl]. split; [exact Hd | apply Hl; lia].
Qed.

Lemma fetch_steps_select con days recs :
  App.fetch_steps con days = Return recs ->
  exists extra,
    select con [Col "day" "date"; Col "steps" "steps"; extra]
      "daily_summary" None "day" days = Return recs.
Proof.
  unfold App.fetch_steps. intros H.
  apply bind_Return in H as (te & _ & H).
  destruct te; simpl in H; [|discriminate].
  apply bind_Return in H as (cols & _ & H).
  destruct (negb _); [discriminate|]. eauto.
Qed.

Lemma fetch_stress_select con days recs :
  App.fetch_stress con days = Return recs ->
  select con [Col "day" "date"; Col "stress_avg" "stress_avg"]
    "daily_summary" (Some "stress_avg") "day" days = Return recs.
Proof.
  unfold App.fetch_stress. intros H.
  apply bind_Return in H as (te & _ & H).
  destruct te; simpl in H; [|discriminate].
  apply bind_Return in H as (cols & _ & H).
  destruct (_ || _)%bool; [discriminate|]. exact H.
Qed.

Lemma fetch_sleep_window L con days recs :
  App.fetch_sleep L con days = Return recs ->
  descending (App.sl_date) recs /\
  (0 <= days -> Z.of_nat (List.length recs) <= days).
Proof.
  unfold App.fetch_sleep. intros H.
  apply bind_Return in H as (found & _ & H).
  destruct found as [|one more]; [discriminate|].
  apply bind_Return in H as (df & Hdf & H).
  apply bind_Return in H as (total & _ & H).
  apply bind_Return in H as (deep & _ & H).
  apply bind_Return in H as (light & _ & H).
  apply bind_Return in H as (rem & _ & H).
  apply bind_Return in H as (awk & _ & H).
  injection H as <-.
  apply select_window in Hdf as [Hd Hl]. split.
  - apply descending_map. rewrite map_map. simpl.
    rewrite (map_range_nth (get "day") [] df).
    intros i a b Ha Hb. rewrite nth_error_map in Ha, Hb.
    destruct (nth_error df i) as [ra|] eqn:Ea; [|discriminate].
    destruct (nth_error df (S i)) as [rb|] eqn:Eb; [|discriminate].
    injection Ha as <-. injection Hb as <-. eapply Hd; eassumption.
  - now rewrite length_map, length_seq.
Qed.

Lemma fetch_exercise_frame L con days recs :
  App.fetch_exercise L con days = Return recs ->
  exists items df moderate vigorous goal total,
    select con (Col "day" "date" :: items) "daily_summary" None "day" days
    = Return df /\
    App._to_seconds L (App.series df "moderate_activity_time")
    = Return moderate /\
    App._to_seconds L (App.series df "vigorous_activity_time")
    = Return vigorous /\
    mapM Pandas.astype_Int64 (App.add_filled moderate vigorous)
    = Return total /\
    recs = map (fun i =>
                  let r := nth i df [] in
                  App.mkExerciseRecord (get "date" r)
                    (get "moderate_activity_time" r)
                    (get "vigorous_activity_time" r)
                    (get "intensity_time_goal" r)
                    (nth i moderate None) (nth i vigorous None)
                    (nth i goal None) (nth i total None)
                    (get "distance" r) (get "calories_active" r)
                    (get "calories_total" r))
             (seq 0 (List.length df)).
Proof.
  unfold App.fetch_exercise. intros H.
  apply bind_Return in H as (te & _ & H).
  destruct te; simpl in H; [|discriminate].
  apply bind_Return in H as (cols & _ & H).
  destruct (negb _); [discriminate|].
  apply bind_Return in H as (df & Hdf & H).
  apply bind_Return in H as (moderate & Hm & H).
  apply bind_Return in H as (vigorous & Hv & H).
  apply bind_Return in H as (goal & Hg & H).
  apply bind_Return in H as (total & Ht & H).
  injection H as <-.
  eexists _, df, moderate, vigorous, goal, total.
  repeat split; eassumption || reflexivity.
Qed.

Lemma fetch_exercise_window L con days recs :
  App.fetch_exercise L con days = Return recs ->
  descending (App.ex_date) recs /\
  (0 <= days -> Z.of_nat (List.length recs) <= days).
Proof.
  intros H.
  apply fetch_exercise_frame in H
    as (items & df & mo & vi & go & to & Hdf & _ & _ & _ & ->).
  apply select_window in Hdf as [Hd Hl]. split.
  - apply descending_map. rewrite map_map. simpl.
    rewrite (map_range_nth (get "date") [] df).
    intros i a b Ha Hb. rewrite nth_error_map in Ha, Hb.
    destruct (nth_error df i) as [ra|] eqn:Ea; [|discriminate].
    destruct (nth_error df (S i)) as [rb|] eqn:Eb; [|discriminate].
    injection Ha as <-. injection Hb as <-. eapply Hd; eassumption.
  - now rewrite length_map, length_seq.
Qed.

(** The cast of a float that is there gives an integer equal to it. *)
Lemma astype_Int64_Some q z :
  Pandas.astype_Int64 (Some q) = Return z ->
  exists n, z = Some n /\ (inject_Z n == q)%Q.
Proof.
  simpl. destruct (Qeq_bool (inject_Z (Qfloor q)) q) eqn:E; [|discriminate].
  intros H. injection H as <-. exists (Qfloor q). split; [reflexivity|].
  now apply Qeq_bool_iff.
Qed.

Lemma to_seconds_length L s secs :
  App._to_seconds L s = Return secs -> List.length secs = List.length s.
Proof.
  unfold App._to_seconds, Pandas.to_timedelta. intros H.
  apply bind_Return in H as (td & Htd & H). injection H as <-.
  apply mapM_Forall2, Forall2_length_eq in Htd.
  now rewrite length_map.
Qed.

End AppFacts.

(** * The claims *)

(** ** Schema introspection and the readers *)

Module ReaderClaims.

Import SqliteFacts PyFacts AppFacts.



(** The stress reader answers with the stress rows, ordered and cut. *)
Lemma fetch_stress_shape con days recs :
  App.fetch_stress con days = Return recs ->
  exists key : record -> value,
    recs = limit days (order_by_desc key (stress_rows con)) /\
    forall r, In r (stress_rows con) ->
              get "date" r = key r /\ get "stress_avg" r <> VNull.
Proof.
  intros H. apply fetch_stress_select in H.
  apply select_Return in H
    as (tb & sel & keep & oi & Htb & Hsel & Ho & (i & Hi & ->) & ->).
  unfold from_table in Htb.
  destruct (db_ok con); [|discriminate].
  destruct (find_table "daily_summary" (db_tables con)) as [tb'|] eqn:Ef;
    [|discriminate].
  injection Htb as ->.
  unfold column in Ho, Hi, Hsel. simpl in Hsel. unfold column in Hsel.
  unfold stress_rows. rewrite Ef.
  destruct (col_index "day" (tbl_cols tb)) as [d|]; [|discriminate].
  destruct (col_index "stress_avg" (tbl_cols tb)) as [s|]; [|discriminate].
  simpl in Hsel. injection Hsel as <-. injection Ho as <-.
  injection Hi as <-.
  exists (get "date"). split.
  - unfold limit. set (rows := filter _ (tbl_rows tb)).
    assert (Hmap : forall l : list (list value),
               map (project [("date", Some d); ("stress_avg", Some s)])
                 (order_by_desc (fun r => cell r d) l)
               = order_by_desc (get "date")
                   (map (fun r => [("date", cell r d);
                                   ("stress_avg", cell r s)]) l)).
    { induction l as [|x l IH]; simpl; [reflexivity|].
      rewrite <- IH. generalize (order_by_desc (fun r => cell r d) l).
      induction l0 as [|y l0 IH0]; simpl; [reflexivity|].
      destruct (value_leb (cell y d) (cell x d)); simpl;
        [reflexivity | now rewrite <- IH0]. }
    destruct (days <? 0).
    + apply Hmap.
    + rewrite <- firstn_map. f_equal. apply Hmap.
  - intros r Hr. apply in_map_iff in Hr as (row & <- & Hrow).
    apply filter_In in Hrow as [_ Hk]. split; [reflexivity|].
    simpl. intros E. rewrite E in Hk. discriminate.
Qed.

(** C2, as amended.  Whenever the stress reader answers, no record of the
    answer has a null [stress_avg] and every record is a row of
    [daily_summary] with a stress reading; the answer is in descending
    order of date; its length is the number of such rows cut to the limit
    (all of them under a negative limit); and when that number does not
    exceed the limit the answer holds exactly those rows. *)
Theorem stress_reader_omits_null (con : database) (days : Z)
    (recs : list record) :
  App.fetch_stress con days = Return recs ->
  Forall (fun r => get "stress_avg" r <> VNull) recs /\
  incl recs (stress_rows con) /\
  descending (get "date") recs /\
  List.length recs
  = (if days <? 0 then List.length (stress_rows con)
     else Nat.min (Z.to_nat days) (List.length (stress_rows con))) /\
  (days < 0 \/ Z.of_nat (List.length (stress_rows con)) <= days ->
   Permutation recs (stress_rows con)).
Proof.
  intros H. pose proof (fetch_stress_select _ _ _ H) as Hsel.
  apply fetch_stress_shape in H as (key & -> & Hrows).
  assert (Hin : incl (limit days (order_by_desc key (stress_rows con)))
                  (stress_rows con)).
  { intros r Hr. apply limit_incl in Hr.
    eapply Permutation_in; [symmetry; apply order_by_desc_perm | exact Hr]. }
  repeat split.
  - apply Forall_forall. intros r Hr. now apply Hrows, Hin.
  - exact Hin.
  - now apply select_window in Hsel.
  - rewrite limit_length_exact.
    now rewrite <- (Permutation_length (order_by_desc_perm key _)).
  - intros Hall. rewrite limit_all.
    + symmetry. apply order_by_desc_perm.
    + now rewrite <- (Permutation_length (order_by_desc_perm key _)).
Qed.

Lemma stress_reader_omits_null_witness :
  exists recs,
    App.fetch_stress Sample.garmin_db 30 = Return recs /\
    Forall (fun r => get "stress_avg" r <> VNull) recs /\
    List.length recs = 2%nat /\
    Permutation recs (stress_rows Sample.garmin_db).
Proof.
  eexists. split; [reflexivity|].
  destruct (stress_reader_omits_null Sample.garmin_db 30 _ eq_refl)
    as (Hnull & _ & _ & Hlen & Hperm).
  split; [exact Hnull|]. split; [exact Hlen|].
  apply Hperm. right. simpl. lia.
Defined.

(** C2, as stated, fails once more rows carry a stress reading than the
    limit admits.  Of thirty-two days, the latest without a reading and
    thirty-one with one, the reader called with the default limit of 30
    returns thirty records: neither the thirty-one rows that have a
    reading, nor the twenty-nine that have one among the thirty most
    recent days. *)
Lemma stress_reader_cuts_to_limit :
  ~ (forall con days recs,
        App.fetch_stress con days = Return recs ->
        List.length recs = List.length (stress_rows con) \/
        List.length recs = List.length (stress_in_window con days)).
Proof.
  intros H.
  specialize (H Sample.winter 30 _ eq_refl).
  vm_compute in H. destruct H; discriminate.
Qed.

(** C4, as amended.  Whatever the database holds, each of the five readers
    that answers does so with a sequence in descending order of date; the
    daily summary has at most 30 records, and the other readers at most as
    many as a limit that is not negative allows. *)
Theorem readers_descending_and_bounded (L : Pandas.lib) (con : database) :
  (forall recs,
      App.fetch_daily_summary con = Return recs ->
      descending (get "date") recs /\ Z.of_nat (List.length recs) <= 30) /\
  (forall days recs,
      App.fetch_sleep L con days = Return recs ->
      descending App.sl_date recs /\
      (0 <= days -> Z.of_nat (List.length recs) <= days)) /\
  (forall days recs,
      App.fetch_steps con days = Return recs ->
      descending (get "date") recs /\
      (0 <= days -> Z.of_nat (List.length recs) <= days)) /\
  (forall days recs,
      App.fetch_stress con days = Return recs ->
      descending (get "date") recs /\
      (0 <= days -> Z.of_nat (List.length recs) <= days)) /\
  (forall days recs,
      App.fetch_exercise L con days = Return recs ->
      descending App.ex_date recs /\
      (0 <= days -> Z.of_nat (List.length recs) <= days)).
Proof.
  repeat split; intros.
  all: try (now apply (fetch_daily_summary_window con)).
  all: try (eapply fetch_sleep_window; eassumption).
  all: try (eapply fetch_exercise_window; eassumption).
  all: try (match goal with
            | H : App.fetch_steps _ _ = _ |- _ =>
                apply fetch_steps_select in H as (extra & H)
            | H : App.fetch_stress _ _ = _ |- _ =>
                apply fetch_stress_select in H
            end;
            match goal with
            | H : select _ _ _ _ _ _ = _ |- _ =>
                apply select_window in H as [Hd Hl]; auto
            end).
Qed.

Lemma readers_descending_and_bounded_witness :
  (exists recs, App.fetch_daily_summary Sample.garmin_db = Return recs /\
                descending (get "date") recs /\
                Z.of_nat (List.length recs) <= 30) /\
  (exists recs, App.fetch_sleep Sample.strict Sample.garmin_db 1
                = Return recs /\
                descending App.sl_date recs /\
                Z.of_nat (List.length recs) <= 1) /\
  (exists recs, App.fetch_exercise Sample.strict Sample.garmin_db 2
                = Return recs /\
                descending App.ex_date recs /\
                Z.of_nat (List.length recs) <= 2).
Proof.
  destruct (readers_descending_and_bounded Sample.strict Sample.garmin_db)
    as (Hdaily & Hsleep & _ & _ & Hexercise).
  split; [|split].
  - eexists. split; [reflexivity|]. apply Hdaily. reflexivity.
  - eexists. split; [vm_compute; reflexivity|].
    destruct (Hsleep 1 _ eq_refl) as [Hd Hl]. split; [exact Hd|].
    apply Hl. lia.
  - eexists. split; [vm_compute; reflexivity|].
    destruct (Hexercise 2 _ eq_refl) as [Hd Hl]. split; [exact Hd|].
    apply Hl. lia.
Defined.

(** C4, as stated, fails for a limit below zero, which SQLite reads as no
    limit: the steps reader called with -1 returns all three rows. *)
Lemma negative_limit_is_no_limit :
  ~ (forall con days recs,
        App.fetch_steps con days = Return recs ->
        Z.of_nat (List.length recs) <= days).
Proof.
  intros H.
  specialize (H Sample.garmin_db (-1) _ eq_refl).
  vm_compute in H. apply H. reflexivity.
Qed.

(** C3.  In every record the exercise reader returns,
    [total_activity_seconds] is an integer, never null, and equals the
    moderate seconds plus the vigorous seconds, each counted as 0 when it
    is null. *)
Theorem exercise_total_is_sum (L : Pandas.lib) (con : database) (days : Z)
    (recs : list App.ExerciseRecord) :
  App.fetch_exercise L con days = Return recs ->
  Forall (fun r =>
            exists n : Z,
              App.total_activity_seconds r = Some n /\
              (inject_Z n ==
               Pandas.fillna0 (App.moderate_activity_seconds r)
               + Pandas.fillna0 (App.vigorous_activity_seconds r))%Q)
    recs.
Proof.
  intros H.
  apply fetch_exercise_frame in H
    as (items & df & mo & vi & go & to & _ & Hm & Hv & Ht & ->).
  apply to_seconds_length in Hm, Hv.
  unfold App.series in Hm, Hv. rewrite length_map in Hm, Hv.
  apply mapM_Forall2 in Ht.
  pose proof (Forall2_length_eq _ _ _ Ht) as Hlen.
  unfold App.add_filled in Hlen, Ht.
  rewrite length_map, length_combine, Hm, Hv, Nat.min_id in Hlen.
  apply Forall_forall. intros r Hr.
  apply in_map_iff in Hr as (i & <- & Hi). apply in_seq in Hi. simpl.
  assert (Hto : nth_error to i = Some (nth i to None))
    by (apply nth_error_nth'; lia).
  assert (Hsum : nth_error
                   (map (fun p => Some (Pandas.fillna0 (fst p)
                                        + Pandas.fillna0 (snd p))%Q)
                      (combine mo vi)) i
                 = Some (Some (Pandas.fillna0 (nth i mo None)
                               + Pandas.fillna0 (nth i vi None))%Q)).
  { rewrite nth_error_map.
    rewrite (nth_error_nth' (combine mo vi) (None, None))
      by (rewrite length_combine; lia).
    simpl. now rewrite combine_nth by lia. }
  pose proof (Forall2_nth_error _ _ _ Ht i _ _ Hsum Hto) as Hcast.
  apply astype_Int64_Some in Hcast as (n & Hn & Hq).
  exists n. split; assumption.
Qed.

Lemma exercise_total_is_sum_witness :
  exists recs,
    App.fetch_exercise Sample.strict Sample.garmin_db 30 = Return recs /\
    Forall (fun r =>
              exists n : Z,
                App.total_activity_seconds r = Some n /\
                (inject_Z n ==
                 Pandas.fillna0 (App.moderate_activity_seconds r)
                 + Pandas.fillna0 (App.vigorous_activity_seconds r))%Q)
      recs.
Proof.
  eexists. split; [vm_compute; reflexivity|].
  apply (exercise_total_is_sum Sample.strict Sample.garmin_db 30).
  reflexivity.
Defined.

End ReaderClaims.

(** ** The scan of a duration text *)

Module PandasFacts.

Import PyFacts.

Lemma digit_not (c d : ascii) :
  Pandas.is_digit c = true -> Pandas.is_digit d = false ->
  Ascii.eqb c d = false.
Proof.
  intros Hc Hd. destruct (Ascii.eqb_spec c d) as [->|]; congruence.
Qed.

Lemma digit_value_range (c : ascii) :
  Pandas.is_digit c = true -> 0 <= Pandas.digit_value c <= 9.
Proof.
  unfold Pandas.is_digit, Pandas.digit_value. intros H.
  apply andb_prop in H as [H1 H2].
  apply Nat.leb_le in H1, H2. lia.
Qed.

Lemma digits_value_from_nonneg (s : string) :
  all_digits s = true ->
  forall acc, 0 <= acc -> 0 <= Pandas.digits_value_from acc s.
Proof.
  induction s as [|c s IH]; simpl; intros H acc Hacc; [exact Hacc|].
  apply andb_prop in H as [Hc Hs].
  apply IH; [exact Hs|]. pose proof (digit_value_range c Hc). lia.
Qed.

Lemma digits_value_nonneg (s : string) :
  all_digits s = true -> 0 <= Pandas.digits_value s.
Proof. intros H. apply digits_value_from_nonneg; [exact H | lia]. Qed.

Lemma digits_value_two (s : string) :
  all_digits s = true -> (String.length s <= 2)%nat ->
  Pandas.digits_value s <= 99.
Proof.
  destruct s as [|a [|b [|c s]]]; simpl; intros H Hlen;
    unfold Pandas.digits_value; simpl; try lia.
  - rewrite andb_true_r in H. pose proof (digit_value_range a H). lia.
  - rewrite andb_true_r in H. apply andb_prop in H as [Ha Hb].
    pose proof (digit_value_range a Ha).
    pose proof (digit_value_range b Hb). lia.
Qed.

Lemma int64_small (z : Z) :
  - 2 ^ 63 <= z < 2 ^ 63 -> Pandas.int64 z = z.
Proof.
  intros H. unfold Pandas.int64. rewrite Z.mod_small; lia.
Qed.

Lemma int_of_field (s : string) :
  field s -> Pandas.digits_value s < 2 ^ 63 ->
  Pandas.int_of s = Return (Pandas.digits_value s).
Proof.
  intros [Hne _] Hb. unfold Pandas.int_of.
  destruct s as [|c s]; [contradiction|].
  destruct (Z.ltb_spec (Pandas.digits_value (String c s)) (2 ^ 63));
    [reflexivity | lia].
Qed.

Lemma append_snoc (a : string) (c : ascii) (b : string) :
  (Pandas.snoc a c ++ b)%string = (a ++ String c b)%string.
Proof.
  unfold Pandas.snoc. induction a as [|x a IH]; simpl; [reflexivity|].
  now rewrite IH.
Qed.

Lemma append_empty_r (a : string) : (a ++ "")%string = a.
Proof. induction a as [|x a IH]; simpl; [reflexivity | now rewrite IH]. Qed.

Section Scan.
Variable L : Pandas.lib.

Lemma run_app (a b : string) :
  forall st,
    Pandas.run L st (a ++ b)
    = (st' <- Pandas.run L st a ;; Pandas.run L st' b).
Proof.
  induction a as [|c a IH]; simpl; intros st; [reflexivity|].
  destruct (Pandas.step L st c) as [st'|e]; simpl; [apply IH | reflexivity].
Qed.

(** Outside a fraction and a unit, a run of digits is collected in
    [number]. *)
Lemma run_digits (ds : string) :
  all_digits ds = true ->
  forall ng hv hh cu res mm num fr,
    Pandas.run L (Pandas.mkScan ng false hv hh cu res mm num fr "") ds
    = Return (Pandas.mkScan ng false hv hh cu res mm (num ++ ds) fr "").
Proof.
  induction ds as [|c ds IH]; simpl; intros H ng hv hh cu res mm num fr.
  - now rewrite append_empty_r.
  - apply andb_prop in H as [Hc Hds].
    rewrite !(digit_not c) by (exact Hc || reflexivity).
    simpl. rewrite Hc. simpl. rewrite IH by exact Hds.
    now rewrite append_snoc.
Qed.

(** A text that begins with a digit is neither a name of NaT nor an
    ISO 8601 duration. *)
Lemma digit_first (t : string) (c : ascii) (rest : string) :
  t = String c rest -> Pandas.is_digit c = true ->
  (negb (Pandas.nonempty t)
   || existsb (String.eqb t) Pandas.nat_strings)%bool = false /\
  (startswith "P" t || startswith "-P" t)%bool = false.
Proof.
  intros -> Hc. simpl.
  rewrite !(digit_not c) by (exact Hc || reflexivity).
  split; reflexivity.
Qed.

(** The scan of [h:m:s] adds up hours, minutes and seconds in
    nanoseconds. *)
Lemma parse_hms (h m s : string) :
  field h -> field m -> field s ->
  hms_seconds h m s * 1000000000 < 2 ^ 63 ->
  Pandas.convert_text L (hms_text h m s)
  = Return (hms_seconds h m s * 1000000000).
Proof.
  intros Hh Hm Hs Hb.
  pose proof (digits_value_nonneg h (proj2 Hh)) as Ph.
  pose proof (digits_value_nonneg m (proj2 Hm)) as Pm.
  pose proof (digits_value_nonneg s (proj2 Hs)) as Ps.
  unfold hms_seconds in *.
  assert (Hfirst : exists c rest, hms_text h m s = String c rest
                                  /\ Pandas.is_digit c = true).
  { destruct Hh as [Hne Hd]. destruct h as [|c h]; [contradiction|].
    simpl in Hd. apply andb_prop in Hd as [Hc _].
    exists c, (h ++ ":" ++ m ++ ":" ++ s)%string.
    split; [reflexivity | exact Hc]. }
  destruct Hfirst as (c & rest & Etext & Hc).
  destruct (digit_first _ c rest Etext Hc) as [Hnat Hiso].
  unfold Pandas.convert_text, Pandas.parse_timedelta_string.
  rewrite Hiso, Hnat. unfold hms_text.
  rewrite run_app. unfold Pandas.scan0.
  rewrite (run_digits h (proj2 Hh)). simpl.
  assert (Nh : Pandas.nonempty h = true)
    by (destruct Hh as [Hne _]; destruct h; [contradiction|reflexivity]).
  assert (Nm : Pandas.nonempty m = true)
    by (destruct Hm as [Hne _]; destruct m; [contradiction|reflexivity]).
  rewrite Nh. rewrite (int_of_field h Hh) by lia. simpl.
  rewrite (run_app m). rewrite (run_digits m (proj2 Hm)). simpl.
  rewrite Nm. rewrite (int_of_field m Hm) by lia. simpl.
  rewrite (run_digits s (proj2 Hs)). simpl.
  unfold Pandas.finish. simpl.
  rewrite (int_of_field s Hs) by lia. simpl.
  unfold Pandas.add_result, Pandas.timedelta_as_neg. simpl.
  rewrite (int64_small (Pandas.digits_value h * _)) by lia.
  rewrite (int64_small (Pandas.digits_value m * _)) by lia.
  rewrite (int64_small (Pandas.digits_value s * _)) by lia.
  rewrite (int64_small (Pandas.digits_value h * _)) by lia.
  rewrite (int64_small (_ + Pandas.digits_value m * _)) by lia.
  rewrite int64_small by lia.
  f_equal. lia.
Qed.
End Scan.

End PandasFacts.

(** ** Seconds and hours *)

Module NormalizerFacts.

Import PyFacts PandasFacts.

Lemma whole_seconds (k : Z) :
  Pandas.astype_Int64 (Pandas.total_seconds (Some (k * 1000000000)))
  = Return (Some k).
Proof.
  unfold Pandas.total_seconds, Pandas.astype_Int64, option_map.
  assert (E : Qfloor (k * 1000000000 # 1000000000) = k).
  { unfold Qfloor. apply Z.div_mul. discriminate. }
  rewrite E.
  assert (Q : Qeq_bool (inject_Z k) (k * 1000000000 # 1000000000) = true).
  { apply Qeq_bool_iff. unfold Qeq. simpl. lia. }
  now rewrite Q.
Qed.

Lemma floor_bounds (q : Q) :
  (inject_Z (Qfloor q) <= q)%Q /\ (q < inject_Z (Qfloor q) + 1)%Q.
Proof.
  split; [apply Qfloor_le|].
  pose proof (Qlt_floor q) as H.
  rewrite inject_Z_plus in H. exact H.
Qed.

(** [rint] is within one half of its argument. *)
Lemma rint_close (q : Q) :
  (q - (1 # 2) <= inject_Z (Pandas.rint q))%Q /\
  (inject_Z (Pandas.rint q) <= q + (1 # 2))%Q.
Proof.
  unfold Pandas.rint.
  destruct (floor_bounds q) as [F1 F2].
  destruct (floor_bounds (2 * q)) as [T1 T2].
  set (f := Qfloor q) in *. set (t := Qfloor (2 * q)) in *.
  assert (Ht : t = 2 * f \/ t = 2 * f + 1).
  { assert (inject_Z (2 * f) < inject_Z (t + 1))%Q as A
      by (push_inject; lra).
    assert (inject_Z t < inject_Z (2 * f + 2))%Q as B
      by (push_inject; lra).
    rewrite <- Zlt_Qlt in A, B. lia. }
  destruct (Z.eqb_spec t (2 * f)) as [E|E].
  - rewrite E in T2. push_inject_in T2. split; lra.
  - destruct Ht as [Ht|Ht]; [contradiction|].
    rewrite Ht in T1. push_inject_in T1.
    destruct (Qeq_bool (inject_Z t) (2 * q)) eqn:Tie.
    + apply Qeq_bool_iff in Tie. rewrite Ht in Tie. push_inject_in Tie.
      destruct (Z.even f); [split; lra|].
      push_inject. split; lra.
    + push_inject. split; lra.
Qed.

(** The hours of a whole number of seconds are those seconds over 3600,
    rounded to two decimals. *)
Lemma hours_rounded (q : Q) (n : Z) :
  (inject_Z n == q)%Q ->
  exists x,
    Pandas.round2 (Pandas.div (Some q) 3600) = Some x /\
    rounded_2 x (inject_Z n / 3600).
Proof.
  intros E. simpl. eexists. split; [reflexivity|].
  exists (Pandas.rint (q / 3600 * 100)). split; [reflexivity|].
  destruct (rint_close (q / 3600 * 100)) as [R1 R2].
  set (c := Pandas.rint (q / 3600 * 100)) in *.
  assert (X : (c # 100 == inject_Z c / 100)%Q).
  { unfold Qeq, Qdiv, Qmult, Qinv, inject_Z. simpl. lia. }
  rewrite X, E. clearbody c. unfold Qdiv in *.
  assert (I1 : (/ 3600 == 1 # 3600)%Q) by reflexivity.
  assert (I2 : (/ 100 == 1 # 100)%Q) by reflexivity.
  rewrite I1 in *. rewrite I2 in *. split; lra.
Qed.

Section Column.
Variable L : Pandas.lib.

(** What the loop of [fetch_sleep] leaves in a column, cell by cell. *)
Lemma sleep_column_cells (col : string) :
  forall df out,
    App.sleep_column L df col = Return out ->
    Forall2
      (fun r d =>
         exists td,
           Pandas.to_timedelta_cell L (get col r) = Return td /\
           Pandas.astype_Int64 (Pandas.total_seconds td)
           = Return (App.seconds d) /\
           App.raw d = get col r /\
           App.hours d
           = Pandas.round2 (Pandas.div (Pandas.total_seconds td) 3600))
      df out.
Proof.
  induction df as [|r df IH]; intros out H.
  - injection H as <-. constructor.
  - unfold App.sleep_column, App._to_seconds, Pandas.to_timedelta in H.
    simpl in H.
    apply bind_Return in H as (secs & Hsecs & H).
    apply bind_Return in Hsecs as (tds & Htds & Hsecs).
    apply bind_Return in Htds as (td & Htd & Htds).
    apply bind_Return in Htds as (tds' & Htds' & Htds).
    injection Htds as <-. injection Hsecs as <-. simpl in H.
    apply bind_Return in H as (ints & Hints & H).
    apply bind_Return in Hints as (n & Hn & Hints).
    apply bind_Return in Hints as (ints' & Hints' & Hints).
    injection Hints as <-. simpl in H. injection H as <-.
    constructor.
    + exists td. simpl. auto.
    + apply IH.
      unfold App.sleep_column, App._to_seconds, Pandas.to_timedelta.
      rewrite Htds'. simpl. rewrite Hints'. reflexivity.
Qed.

(** The loop answers as soon as every cell converts and casts. *)
Lemma sleep_column_total (col : string) :
  forall df,
    Forall (fun r =>
              exists td n,
                Pandas.to_timedelta_cell L (get col r) = Return td /\
                Pandas.astype_Int64 (Pandas.total_seconds td) = Return n)
      df ->
    exists out, App.sleep_column L df col = Return out.
Proof.
  induction 1 as [|r df (td & n & Htd & Hn) _ (out & Hout)].
  - eexists. reflexivity.
  - unfold App.sleep_column, App._to_seconds, Pandas.to_timedelta in *.
    unfold App.series in *. simpl. rewrite Htd. simpl.
    destruct (mapM (Pandas.to_timedelta_cell L) (map (get col) df))
      as [tds|e]; [|discriminate]. simpl in *. rewrite Hn. simpl.
    destruct (mapM Pandas.astype_Int64 (map Pandas.total_seconds tds))
      as [ints|e]; [|discriminate]. simpl. eexists. reflexivity.
Qed.

Lemma cell_hms (h m s : string) :
  field h -> field m -> field s ->
  hms_seconds h m s * 1000000000 < 2 ^ 63 ->
  Pandas.to_timedelta_cell L (VText (hms_text h m s))
  = Return (Some (hms_seconds h m s * 1000000000)).
Proof.
  intros Hh Hm Hs Hb. simpl. rewrite parse_hms by assumption. simpl.
  pose proof (digits_value_nonneg h (proj2 Hh)).
  pose proof (digits_value_nonneg m (proj2 Hm)).
  pose proof (digits_value_nonneg s (proj2 Hs)).
  unfold hms_seconds in *.
  destruct (Z.eqb_spec
              ((Pandas.digits_value h * 3600 + Pandas.digits_value m * 60
                + Pandas.digits_value s) * 1000000000) Pandas.NPY_NAT)
    as [E|E]; [|reflexivity].
  unfold Pandas.NPY_NAT in E. lia.
Qed.

Lemma cell_unparsable (t : string) :
  t = "" \/ unparsable L t ->
  Pandas.to_timedelta_cell L (VText t) = Return None.
Proof.
  intros [->|(msg & E)]; [reflexivity|].
  simpl. rewrite E. reflexivity.
Qed.
End Column.

End NormalizerFacts.

(** ** Time normalization *)

Module NormalizerClaims.

Import PyFacts PandasFacts NormalizerFacts.

Lemma fits_bound (h m s : string) :
  field h -> field m -> field s -> fits h m s ->
  hms_seconds h m s * 1000000000 < 2 ^ 63.
Proof.
  intros Hh Hm Hs [(Lh & Lm & Ls)|Hb]; [|exact Hb].
  pose proof (digits_value_two h (proj2 Hh) Lh).
  pose proof (digits_value_two m (proj2 Hm) Lm).
  pose proof (digits_value_two s (proj2 Hs) Ls).
  unfold hms_seconds. lia.
Qed.

Lemma cast_None (td : option Z) :
  Pandas.astype_Int64 (Pandas.total_seconds td) = Return None ->
  td = None.
Proof.
  destruct td as [ns|]; [|reflexivity]. simpl.
  destruct (Qeq_bool _ _); discriminate.
Qed.

Lemma Forall2_nth {A B : Type} (P : A -> B -> Prop) (da : A) (db : B) :
  forall l l', Forall2 P l l' ->
  forall i, (i < List.length l)%nat -> P (nth i l da) (nth i l' db).
Proof.
  intros l l' H i Hi.
  pose proof (Forall2_length_eq _ _ _ H) as Hlen.
  apply (Forall2_nth_error _ _ _ H i); apply nth_error_nth'; lia.
Qed.

Section Normalizer.
Variable L : Pandas.lib.

Lemma sleep_column_normalized df col out :
  App.sleep_column L df col = Return out ->
  Forall2 (fun r d => normalized L (get col r) d) df out.
Proof.
  intros H. apply sleep_column_cells in H.
  eapply Forall2_impl; [|exact H].
  intros r d (td & Htd & Hcast & Hraw & Hhours).
  split; [exact Hraw|]. split; [|split].
  - intros h m s E Hh Hm Hs Hf.
    pose proof (fits_bound h m s Hh Hm Hs Hf) as Hb.
    rewrite E, (cell_hms L h m s Hh Hm Hs Hb) in Htd.
    injection Htd as <-. rewrite whole_seconds in Hcast.
    now injection Hcast as <-.
  - intros t E Ht. rewrite E, (cell_unparsable L t Ht) in Htd.
    injection Htd as <-. simpl in Hcast, Hhours.
    injection Hcast as <-. auto.
  - destruct (App.seconds d) as [n|] eqn:En.
    + destruct td as [ns|]; [|discriminate].
      simpl Pandas.total_seconds in Hcast, Hhours.
      apply AppFacts.astype_Int64_Some in Hcast as (n' & E' & Hq).
      injection E' as <-. rewrite Hhours.
      now apply hours_rounded.
    + apply cast_None in Hcast. subst td. exact Hhours.
Qed.

Lemma sleep_column_plain df col :
  Forall (fun r => plain L (get col r)) df ->
  exists out, App.sleep_column L df col = Return out.
Proof.
  intros H. apply sleep_column_total.
  eapply Forall_impl; [|exact H]. intros r [E|(t & E & Ht)]; rewrite E.
  - exists None, None. split; reflexivity.
  - destruct Ht as [Ht|[Ht|(h & m & s & -> & Hh & Hm & Hs & Hf)]].
    + exists None, None.
      rewrite (cell_unparsable L t (or_introl Ht)). split; reflexivity.
    + exists None, None.
      rewrite (cell_unparsable L t (or_intror Ht)). split; reflexivity.
    + pose proof (fits_bound h m s Hh Hm Hs Hf) as Hb.
      exists (Some (hms_seconds h m s * 1000000000)),
             (Some (hms_seconds h m s)).
      split; [now apply cell_hms | apply whole_seconds].
Qed.

(** Every duration of a record of the sleep reader is normalized. *)
Lemma fetch_sleep_normalized con days recs :
  App.fetch_sleep L con days = Return recs ->
  Forall (fun r =>
            Forall (fun d => normalized L (App.raw d) d)
              [App.total_sleep r; App.deep_sleep r; App.light_sleep r;
               App.rem_sleep r; App.awake r]) recs.
Proof.
  unfold App.fetch_sleep. intros H.
  apply bind_Return in H as (found & _ & H).
  destruct found as [|one more]; [discriminate|].
  apply bind_Return in H as (df & _ & H).
  apply bind_Return in H as (total & Htotal & H).
  apply bind_Return in H as (deep & Hdeep & H).
  apply bind_Return in H as (light & Hlight & H).
  apply bind_Return in H as (rem & Hrem & H).
  apply bind_Return in H as (awk & Hawk & H).
  injection H as <-.
  apply Forall_forall. intros r Hr.
  apply in_map_iff in Hr as (i & <- & Hi). apply in_seq in Hi. simpl.
  assert (Hcol : forall col out,
             App.sleep_column L df col = Return out ->
             normalized L (App.raw (nth i out App.no_duration))
               (nth i out App.no_duration)).
  { intros col out Hout. apply sleep_column_normalized in Hout.
    assert (Hlt : (i < List.length df)%nat) by lia.
    pose proof (Forall2_nth _ [] App.no_duration _ _ Hout i Hlt) as Hn.
    simpl in Hn. now rewrite (proj1 Hn) at 1. }
  repeat constructor; eapply Hcol; eassumption.
Qed.
End Normalizer.

(** C1.  For a duration column of the sleep reader: a text [HH:MM:SS]
    gives exactly H*3600 + M*60 + S seconds; an empty or unparsable text
    gives null seconds and null hours; the hours are the seconds over 3600
    rounded to two decimals, and null where the seconds are null.  A bad
    text is never an error: a column of nulls and of empty, unparsable or
    [HH:MM:SS] texts is always processed, each cell on its own.  The
    records the sleep reader returns carry durations normalized so. *)
Theorem time_normalization (L : Pandas.lib) :
  (forall df col out,
      App.sleep_column L df col = Return out ->
      Forall2 (fun r d => normalized L (get col r) d) df out) /\
  (forall df col,
      Forall (fun r => plain L (get col r)) df ->
      exists out, App.sleep_column L df col = Return out) /\
  (forall con days recs,
      App.fetch_sleep L con days = Return recs ->
      Forall (fun r =>
                Forall (fun d => normalized L (App.raw d) d)
                  [App.total_sleep r; App.deep_sleep r; App.light_sleep r;
                   App.rem_sleep r; App.awake r]) recs).
Proof.
  split; [|split].
  - apply sleep_column_normalized.
  - apply sleep_column_plain.
  - apply fetch_sleep_normalized.
Qed.

Lemma time_normalization_witness :
  unparsable Sample.strict "not a time" /\
  exists out,
    App.sleep_column Sample.strict Sample.naps "awake" = Return out /\
    map App.seconds out = [Some 27015; None; None; None] /\
    Forall2 (fun r d => normalized Sample.strict (get "awake" r) d)
      Sample.naps out.
Proof.
  split; [eexists; reflexivity|].
  eexists. split; [vm_compute; reflexivity|]. split; [reflexivity|].
  apply (proj1 (time_normalization Sample.strict) Sample.naps "awake").
  vm_compute. reflexivity.
Defined.

(** Outside the texts C1 speaks of: a text that parses to a fraction of a
    second is not nulled; the cast to a nullable integer refuses it and the
    whole column fails. *)
Example fraction_of_a_second_fails :
  App.sleep_column Sample.strict [[("awake", VText "07:30:00.5")]] "awake"
  = raise TypeError "cannot safely cast non-equivalent float64 to int64".
Proof. vm_compute. reflexivity. Qed.

End NormalizerClaims.

(** ** The handlers *)

Module HandlerFacts.

Lemma differs_true (x : option string) (s : string) :
  x <> Some s -> differs x s = true.
Proof.
  destruct x as [v|]; simpl; [|reflexivity]. intros H.
  destruct (String.eqb_spec v s) as [->|]; [now contradiction H | reflexivity].
Qed.

Lemma lookup_store (k : string) (v : json) (kv : list (string * json)) :
  lookup k (store k v kv) = Some v.
Proof.
  induction kv as [|[k' v'] kv IH]; simpl.
  - now rewrite String.eqb_refl.
  - destruct (String.eqb k' k) eqn:E; simpl.
    + now rewrite String.eqb_refl.
    + now rewrite E.
Qed.

Lemma app_update_completed P x w cp :
  completed x = Return cp ->
  App.log_writable (effect x w) = true ->
  exists w',
    App.update_garmin_data P x w
    = (Return (answer (result_of (App.UPDATE_LOG P) x cp)), w').
Proof.
  intros Hcp Hlog.
  unfold App.update_garmin_data, App._run_update_sync, io_bind,
    subprocess_run, App.append_log.
  rewrite Hcp, Hlog. eexists. reflexivity.
Qed.

Lemma app_update_answer P x w resp w' :
  App.update_garmin_data P x w = (Return resp, w') ->
  exists cp,
    completed x = Return cp /\
    resp = answer (result_of (App.UPDATE_LOG P) x cp).
Proof.
  unfold App.update_garmin_data, App._run_update_sync, io_bind,
    subprocess_run, App.append_log.
  destruct (completed x) as [cp|e]; [|discriminate].
  destruct (App.log_writable (effect x w)); [|discriminate].
  intros H. injection H as <- _. eauto.
Qed.

Lemma app_update_launch_failure P x w e :
  completed x = Raise e ->
  App.update_garmin_data P x w = (Raise e, w).
Proof.
  intros Hcp.
  unfold App.update_garmin_data, App._run_update_sync, io_bind,
    subprocess_run.
  now rewrite Hcp.
Qed.

Section Routes.
Context {C : Type}.
Variables UPDATE_LOG CLI : string.
Variable read_cfg : io (Routes.world C) json.
Variable write_cfg : json -> io (Routes.world C) unit.

Lemma routes_update_completed req x w r0 w1 cp :
  Routes.update_config read_cfg write_cfg req w = (Return r0, w1) ->
  completed x = Return cp ->
  Routes.log_writable (effect x w1) = true ->
  exists w',
    Routes.update_garmin_data UPDATE_LOG CLI read_cfg write_cfg req x w
    = (Return (answer (result_of UPDATE_LOG x cp)), w').
Proof.
  intros Hcfg Hcp Hlog.
  unfold Routes.update_garmin_data, io_bind. rewrite Hcfg.
  unfold Routes._run_garmindb, io_bind, subprocess_run, Routes.append_log.
  rewrite Hcp, Hlog. eexists. reflexivity.
Qed.

Lemma routes_update_answer req x w resp w' :
  Routes.update_garmin_data UPDATE_LOG CLI read_cfg write_cfg req x w
  = (Return resp, w') ->
  exists cp,
    completed x = Return cp /\
    resp = answer (result_of UPDATE_LOG x cp).
Proof.
  unfold Routes.update_garmin_data, io_bind.
  destruct (Routes.update_config read_cfg write_cfg req w) as [[r0|e] w1];
    [|discriminate].
  unfold Routes._run_garmindb, io_bind, subprocess_run, Routes.append_log.
  destruct (completed x) as [cp|e]; [|discriminate].
  destruct (Routes.log_writable (effect x w1)); [|discriminate].
  intros H. injection H as <- _. eauto.
Qed.

Lemma routes_update_launch_failure req x w r0 w1 e :
  Routes.update_config read_cfg write_cfg req w = (Return r0, w1) ->
  completed x = Raise e ->
  Routes.update_garmin_data UPDATE_LOG CLI read_cfg write_cfg req x w
  = (Raise e, w1).
Proof.
  intros Hcfg Hcp.
  unfold Routes.update_garmin_data, io_bind. rewrite Hcfg.
  unfold Routes._run_garmindb, io_bind, subprocess_run.
  now rewrite Hcp.
Qed.
End Routes.

End HandlerFacts.

Module HandlerClaims.

Import HandlerFacts.

(** C6.  For every run of the sync tool that completes, in [app.py] as in
    [routes.py], the result has [ok] true exactly when the exit code is 0,
    and the handler answers with that result as its JSON body (exit code,
    output, error output, timestamps, log path) under status 200 when [ok]
    is true and 500 otherwise.  Every response of the handler is of this
    kind. *)
Theorem update_status_follows_exit_code (cp : CompletedProcess) :
  (forall log (W : Type) (x : execution W),
      (ok (result_of log x cp) = true <-> cp_returncode cp = 0) /\
      returncode (result_of log x cp) = cp_returncode cp /\
      status (answer (result_of log x cp))
      = (if ok (result_of log x cp) then 200 else 500) /\
      body (answer (result_of log x cp))
      = jsonify_result (result_of log x cp)) /\
  (forall P x w,
      completed x = Return cp ->
      App.log_writable (effect x w) = true ->
      exists w',
        App.update_garmin_data P x w
        = (Return (answer (result_of (App.UPDATE_LOG P) x cp)), w')) /\
  (forall P x w resp w',
      completed x = Return cp ->
      App.update_garmin_data P x w = (Return resp, w') ->
      resp = answer (result_of (App.UPDATE_LOG P) x cp)) /\
  (forall (C : Type) UPDATE_LOG CLI read_cfg write_cfg req x
          (w : Routes.world C) r0 w1,
      Routes.update_config read_cfg write_cfg req w = (Return r0, w1) ->
      completed x = Return cp ->
      Routes.log_writable (effect x w1) = true ->
      exists w',
        Routes.update_garmin_data UPDATE_LOG CLI read_cfg write_cfg req x w
        = (Return (answer (result_of UPDATE_LOG x cp)), w')) /\
  (forall (C : Type) UPDATE_LOG CLI read_cfg write_cfg req x
          (w : Routes.world C) resp w',
      completed x = Return cp ->
      Routes.update_garmin_data UPDATE_LOG CLI read_cfg write_cfg req x w
      = (Return resp, w') ->
      resp = answer (result_of UPDATE_LOG x cp)).
Proof.
  repeat split.
  - simpl. apply Z.eqb_eq.
  - simpl. apply Z.eqb_eq.
  - intros. now apply app_update_completed.
  - intros P x w resp w' Hcp H.
    apply app_update_answer in H as (cp' & Hcp' & ->). congruence.
  - intros. eapply routes_update_completed; eassumption.
  - intros C UPDATE_LOG CLI read_cfg write_cfg req x w resp w' Hcp H.
    apply routes_update_answer in H as (cp' & Hcp' & ->). congruence.
Qed.

Lemma update_status_follows_exit_code_witness :
  (exists w',
      App.update_garmin_data Sample.paths (Sample.exits 0 "") Sample.world
      = (Return (answer (result_of "/srv/app/update.log"
                           (Sample.exits (W := App.world) 0 "")
                           (mkCompleted 0 "" ""))), w')) /\
  status (answer (result_of "/srv/app/update.log"
                    (Sample.exits (W := App.world) 0 "")
                    (mkCompleted 0 "" ""))) = 200 /\
  (exists w',
      Routes.update_garmin_data "/srv/app/update.log" "garmindb_cli.py"
        Sample.read_cfg Sample.write_cfg None (Sample.exits 7 "boom")
        Sample.routes_world
      = (Return (answer (result_of "/srv/app/update.log"
                           (Sample.exits (W := Routes.world json) 7 "boom")
                           (mkCompleted 7 "" "boom"))), w')) /\
  status (answer (result_of "/srv/app/update.log"
                    (Sample.exits (W := Routes.world json) 7 "boom")
                    (mkCompleted 7 "" "boom"))) = 500.
Proof.
  destruct (update_status_follows_exit_code (mkCompleted 0 "" ""))
    as (_ & Happ & _).
  destruct (update_status_follows_exit_code (mkCompleted 7 "" "boom"))
    as (_ & _ & _ & Hroutes & _).
  split; [|split; [|split]].
  - apply (Happ Sample.paths (Sample.exits 0 "") Sample.world); reflexivity.
  - reflexivity.
  - eapply (Hroutes json "/srv/app/update.log" "garmindb_cli.py"
              Sample.read_cfg Sample.write_cfg None (Sample.exits 7 "boom")
              Sample.routes_world); [cbv; reflexivity | reflexivity..].
  - reflexivity.
Defined.

(** C7, as stated, fails: a run that starts and exits with code 7 is
    answered with status 500, an error status. *)
Lemma nonzero_exit_is_an_http_error :
  ~ (forall P x w cp resp w',
        completed x = Return cp ->
        cp_returncode cp <> 0 ->
        App.update_garmin_data P x w = (Return resp, w') ->
        ~ is_error resp).
Proof.
  intros H.
  eapply (H Sample.paths (Sample.exits 7 "boom") Sample.world
            (mkCompleted 7 "" "boom")).
  - reflexivity.
  - discriminate.
  - cbv. reflexivity.
  - unfold is_error. simpl. lia.
Qed.

(** C7, as amended.  A run that starts and exits with a code other than 0
    raises no exception: the handler answers with the result of the run as
    its JSON body, [ok] false and the exit code in it, under status 500.
    A launch that fails is not answered by the handler at all: its
    exception leaves the handler, no result is built and the log is not
    written. *)
Theorem nonzero_exit_answers_500_with_result (cp : CompletedProcess) :
  cp_returncode cp <> 0 ->
  (forall P x w,
      completed x = Return cp ->
      App.log_writable (effect x w) = true ->
      exists r w',
        App.update_garmin_data P x w
        = (Return (mkResponse 500 (jsonify_result r)), w') /\
        ok r = false /\ returncode r = cp_returncode cp /\
        stdout r = cp_stdout cp /\ stderr r = cp_stderr cp) /\
  (forall (C : Type) UPDATE_LOG CLI read_cfg write_cfg req x
          (w : Routes.world C) r0 w1,
      Routes.update_config read_cfg write_cfg req w = (Return r0, w1) ->
      completed x = Return cp ->
      Routes.log_writable (effect x w1) = true ->
      exists r w',
        Routes.update_garmin_data UPDATE_LOG CLI read_cfg write_cfg req x w
        = (Return (mkResponse 500 (jsonify_result r)), w') /\
        ok r = false /\ returncode r = cp_returncode cp /\
        stdout r = cp_stdout cp /\ stderr r = cp_stderr cp) /\
  (forall P x w e,
      completed x = Raise e ->
      App.update_garmin_data P x w = (Raise e, w)) /\
  (forall (C : Type) UPDATE_LOG CLI read_cfg write_cfg req x
          (w : Routes.world C) r0 w1 e,
      Routes.update_config read_cfg write_cfg req w = (Return r0, w1) ->
      completed x = Raise e ->
      Routes.update_garmin_data UPDATE_LOG CLI read_cfg write_cfg req x w
      = (Raise e, w1)).
Proof.
  intros Hcode.
  assert (Hok : (cp_returncode cp =? 0) = false) by now apply Z.eqb_neq.
  split; [|split; [|split]].
  - intros P x w Hcp Hlog.
    destruct (app_update_completed P x w cp Hcp Hlog) as (w' & H).
    exists (result_of (App.UPDATE_LOG P) x cp), w'.
    rewrite H. unfold answer. simpl. rewrite Hok. auto.
  - intros C UPDATE_LOG CLI read_cfg write_cfg req x w r0 w1 Hcfg Hcp Hlog.
    destruct (routes_update_completed UPDATE_LOG CLI read_cfg write_cfg
                req x w r0 w1 cp Hcfg Hcp Hlog) as (w' & H).
    exists (result_of UPDATE_LOG x cp), w'.
    rewrite H. unfold answer. simpl. rewrite Hok. auto.
  - intros. now apply app_update_launch_failure.
  - intros. eapply routes_update_launch_failure; eassumption.
Qed.

Lemma nonzero_exit_answers_500_with_result_witness :
  (exists r w',
      App.update_garmin_data Sample.paths (Sample.exits 7 "boom")
        Sample.world
      = (Return (mkResponse 500 (jsonify_result r)), w') /\
      ok r = false /\ returncode r = 7 /\ stderr r = "boom") /\
  App.update_garmin_data Sample.paths Sample.fails_to_start Sample.world
  = (raise OSError "No such file or directory: garmindb_cli.py",
     Sample.world).
Proof.
  assert (Hcode : cp_returncode (mkCompleted 7 "" "boom") <> 0)
    by discriminate.
  destruct (nonzero_exit_answers_500_with_result _ Hcode)
    as (Happ & _ & Hfail & _).
  split.
  - destruct (Happ Sample.paths (Sample.exits 7 "boom") Sample.world
                eq_refl eq_refl) as (r & w' & H & Hok & Hrc & _ & Herr).
    exists r, w'. auto.
  - apply Hfail. reflexivity.
Defined.

(** C8.  When the data store exists and the request does not carry
    [confirm=true] (the flag is absent or has another value), the erase
    handler answers 400 and leaves the world as it was: in [app.py] the
    database keeps every row, in [routes.py] the data root keeps every
    entry and the cached session stays. *)
Theorem erase_without_confirm_is_rejected (args : list (string * string)) :
  args_get "confirm" args <> Some "true" ->
  (forall P w con,
      App.db_file w = Some con ->
      exists resp,
        App.erase_data P args w = (Return resp, w) /\ status resp = 400) /\
  (forall (C : Type) DATA_ROOT (w : Routes.world C) items,
      Routes.data_root w = Some items ->
      exists resp,
        Routes.erase_data DATA_ROOT args w = (Return resp, w) /\
        status resp = 400).
Proof.
  intros Hconfirm. apply differs_true in Hconfirm. split.
  - intros P w con Hdb. unfold App.erase_data.
    rewrite Hdb, Hconfirm. eexists. split; reflexivity.
  - intros C DATA_ROOT w items Hroot. unfold Routes.erase_data.
    rewrite Hroot, Hconfirm. eexists. split; reflexivity.
Qed.

Lemma erase_without_confirm_is_rejected_witness :
  (exists resp,
      App.erase_data Sample.paths [("confirm", "yes")] Sample.world
      = (Return resp, Sample.world) /\ status resp = 400) /\
  (exists resp,
      Routes.erase_data "/home/u/HealthData" [("confirm", "yes")]
        Sample.routes_world
      = (Return resp, Sample.routes_world) /\ status resp = 400).
Proof.
  assert (H : args_get "confirm" [("confirm", "yes")] <> Some "true")
    by discriminate.
  destruct (erase_without_confirm_is_rejected _ H) as [Happ Hroutes].
  split.
  - apply (Happ Sample.paths Sample.world Sample.garmin_db). reflexivity.
  - apply (Hroutes json "/home/u/HealthData" Sample.routes_world
             Sample.data_root). reflexivity.
Defined.

(** C9.  Whatever document the config module hands over, a response of
    [GET /api/config] never shows a password: if its document has a
    [credentials] object with a [password] member, that member is the
    empty text.  And when the stored document has such a member, whatever
    its value, the handler does answer, with the member blanked. *)
Theorem config_password_is_blank {C : Type}
    (read_cfg : io (Routes.world C) json) (w : Routes.world C) :
  (forall resp w',
      Routes.get_config read_cfg w = (Return resp, w') ->
      exists doc,
        body resp = Jsonify doc /\
        forall credentials password,
          member "credentials" doc = Some credentials ->
          member "password" credentials = Some password ->
          password = JStr "") /\
  (forall cfg w1 credentials password,
      read_cfg w = (Return (JObj cfg), w1) ->
      lookup "credentials" cfg = Some (JObj credentials) ->
      lookup "password" credentials = Some password ->
      exists doc credentials',
        Routes.get_config read_cfg w
        = (Return (mkResponse 200 (Jsonify doc)), w1) /\
        member "credentials" doc = Some credentials' /\
        member "password" credentials' = Some (JStr "")).
Proof.
  split.
  - intros resp w'. unfold Routes.get_config, io_bind, io_lift, io_ret.
    destruct (read_cfg w) as [[cfg|e] w1]; [|discriminate].
    assert (Hsame : forall doc,
               (forall c p, member "credentials" doc = Some c ->
                            member "password" c = Some p -> p = JStr "") ->
               (Return (mkResponse 200 (Jsonify doc)), w1) = (Return resp, w')
               -> exists doc',
                   body resp = Jsonify doc' /\
                   forall c p, member "credentials" doc' = Some c ->
                               member "password" c = Some p -> p = JStr "").
    { intros doc Hdoc H. injection H as <- _. exists doc. auto. }
    destruct cfg as [| b | x | s | l | kv]; simpl; try discriminate.
    + destruct (PyJson.is_substring "credentials" s); simpl;
        [discriminate|].
      apply Hsame. discriminate.
    + destruct (existsb (PyJson.is_str "credentials") l); simpl;
        [discriminate|].
      apply Hsame. discriminate.
    + destruct (lookup "credentials" kv) as [creds|] eqn:Ec; simpl.
      * destruct creds as [| b | x | s | l | ckv]; simpl;
          try discriminate.
        -- destruct (PyJson.is_substring "password" s); simpl;
             [discriminate|].
           apply Hsame. simpl. intros c p Hc. rewrite Ec in Hc.
           injection Hc as <-. discriminate.
        -- destruct (existsb (PyJson.is_str "password") l); simpl;
             [discriminate|].
           apply Hsame. simpl. intros c p Hc. rewrite Ec in Hc.
           injection Hc as <-. discriminate.
        -- destruct (lookup "password" ckv) as [pw|] eqn:Ep; simpl.
           ++ rewrite ?Ec. simpl. apply Hsame. simpl. intros c p Hc Hp.
              rewrite lookup_store in Hc. injection Hc as <-.
              simpl in Hp. rewrite lookup_store in Hp.
              now injection Hp as <-.
           ++ apply Hsame. simpl. intros c p Hc Hp. rewrite Ec in Hc.
              injection Hc as <-. simpl in Hp. congruence.
      * apply Hsame. simpl. intros c p Hc. congruence.
  - intros cfg w1 creds pw Hread Hc Hp.
    unfold Routes.get_config, io_bind, io_lift, io_ret.
    rewrite Hread. simpl. rewrite Hc. simpl. rewrite Hp. simpl.
    rewrite ?Hc. simpl.
    eexists _, _. split; [reflexivity|]. simpl.
    rewrite lookup_store. split; [reflexivity|]. simpl.
    apply lookup_store.
Qed.

Lemma config_password_is_blank_witness :
  exists doc credentials,
    Routes.get_config Sample.read_cfg Sample.routes_world
    = (Return (mkResponse 200 (Jsonify doc)), Sample.routes_world) /\
    member "credentials" doc = Some credentials /\
    member "password" credentials = Some (JStr "").
Proof.
  destruct (config_password_is_blank Sample.read_cfg Sample.routes_world)
    as [_ H].
  eapply H; reflexivity.
Defined.

(** C10.  The erase handler looks for the data store before it looks at
    the confirmation: on an absent database ([app.py]) or data root
    ([routes.py]) it answers 503 whatever the request carries, and it
    answers 400 only when the data store exists. *)
Theorem erase_checks_existence_first (args : list (string * string)) :
  (forall P w,
      App.db_file w = None ->
      exists resp,
        App.erase_data P args w = (Return resp, w) /\ status resp = 503) /\
  (forall P w resp w',
      App.erase_data P args w = (Return resp, w') ->
      status resp = 400 -> App.db_file w <> None) /\
  (forall (C : Type) DATA_ROOT (w : Routes.world C),
      Routes.data_root w = None ->
      exists resp,
        Routes.erase_data DATA_ROOT args w = (Return resp, w) /\
        status resp = 503) /\
  (forall (C : Type) DATA_ROOT (w : Routes.world C) resp w',
      Routes.erase_data DATA_ROOT args w = (Return resp, w') ->
      status resp = 400 -> Routes.data_root w <> None).
Proof.
  split; [|split; [|split]].
  - intros P w Hdb. unfold App.erase_data. rewrite Hdb.
    eexists. split; reflexivity.
  - intros P w resp w'. unfold App.erase_data.
    destruct (App.db_file w); [discriminate|].
    intros H. injection H as <- _. discriminate.
  - intros C DATA_ROOT w Hroot. unfold Routes.erase_data. rewrite Hroot.
    eexists. split; reflexivity.
  - intros C DATA_ROOT w resp w'. unfold Routes.erase_data.
    destruct (Routes.data_root w); [discriminate|].
    intros H. injection H as <- _. discriminate.
Qed.

Lemma erase_checks_existence_first_witness :
  (exists resp,
      App.erase_data Sample.paths [] (App.mkWorld None None true)
      = (Return resp, App.mkWorld None None true) /\ status resp = 503) /\
  (exists resp,
      Routes.erase_data "/home/u/HealthData" []
        (Routes.mkWorld None None None true JNull)
      = (Return resp, Routes.mkWorld None None None true JNull) /\
      status resp = 503).
Proof.
  destruct (erase_checks_existence_first []) as (Happ & _ & Hroutes & _).
  split.
  - apply Happ. reflexivity.
  - apply Hroutes. reflexivity.
Defined.

End HandlerClaims.

(** * Further properties *)

(** ** Schema guards and SELECT *)

Module GuardFacts.

Import PyFacts SqliteFacts AppFacts.

Lemma ieqb_refl (a : string) : ieqb a a = true.
Proof. unfold ieqb. apply String.eqb_refl. Qed.

Lemma contains_In (x : string) (l : list string) :
  App.contains x l = true <-> In x l.
Proof.
  unfold App.contains. rewrite existsb_exists. split.
  - intros (y & Hy & E). apply String.eqb_eq in E. now subst.
  - intros H. exists x. split; [exact H | apply String.eqb_refl].
Qed.


Lemma find_table_found (name : string) (ts : list (string * table)) :
  In name (map fst ts) -> exists tb, find_table name ts = Some tb.
Proof.
  induction ts as [|[n t] ts IH]; simpl; [contradiction|].
  intros [->|H].
  - rewrite ieqb_refl. eauto.
  - destruct (ieqb n name); eauto.
Qed.

Lemma select_master_rows (con : database) (name : string) :
  db_ok con = true ->
  exists rows,
    select_master con name = Return rows /\
    (rows = [] <-> ~ In name (table_names con)).
Proof.
  intros Hok. unfold select_master, table_names. rewrite Hok.
  eexists. split; [reflexivity|].
  induction (db_tables con) as [|[n t] ts IH]; simpl.
  - tauto.
  - destruct (String.eqb_spec n name) as [->|Hne]; simpl.
    + split; [discriminate | tauto].
    + rewrite IH. tauto.
Qed.

(** [_table_exists] looks for the exact name. *)
Lemma table_exists_true (con : database) (name : string) :
  db_ok con = true -> In name (table_names con) ->
  App._table_exists con name = Return true.
Proof.
  intros Hok Hin. unfold App._table_exists.
  destruct (select_master_rows con name Hok) as (rows & -> & Hrows).
  simpl. destruct rows; [|reflexivity]. tauto.
Qed.

Lemma table_exists_false (con : database) (name : string) :
  db_ok con = true -> ~ In name (table_names con) ->
  App._table_exists con name = Return false.
Proof.
  intros Hok Hin. unfold App._table_exists.
  destruct (select_master_rows con name Hok) as (rows & -> & Hrows).
  simpl. apply Hrows in Hin. now subst.
Qed.

Lemma get_columns_found (con : database) (t : string) (tb : table) :
  db_ok con = true -> find_table t (db_tables con) = Some tb ->
  App._get_columns con t = Return (tbl_cols tb).
Proof.
  intros Hok Hf. unfold App._get_columns, pragma_table_info.
  now rewrite Hok, Hf.
Qed.



Lemma resolve_keys (tb : table) :
  forall items sel,
    mapM (resolve tb) items = Return sel -> map fst sel = map alias items.
Proof.
  induction items as [|it items IH]; simpl; intros sel H.
  - now injection H as <-.
  - apply bind_Return in H as (p & Hp & H).
    apply bind_Return in H as (sel' & Hsel' & H). injection H as <-.
    simpl. f_equal; [|now apply IH].
    destruct it as [c a|a]; simpl in Hp.
    + apply bind_Return in Hp as (i & _ & Hp). now injection Hp as <-.
    + now injection Hp as <-.
Qed.

(** Every record of a SELECT has the aliases of the select list as its
    keys, in order. *)
Lemma select_keys con items t w o n recs :
  select con items t w o n = Return recs ->
  Forall (fun r => keys r = map alias items) recs.
Proof.
  intros H.
  apply select_Return in H as (tb & sel & keep & oi & _ & Hsel & _ & _ & ->).
  apply Forall_forall. intros r Hr.
  apply in_map_iff in Hr as (row & <- & _).
  unfold keys, project. rewrite map_map. simpl.
  now apply resolve_keys in Hsel.
Qed.

Lemma get_skip (a : string) (pre post : list (string * value)) :
  ~ In a (map fst pre) -> get a (pre ++ post) = get a post.
Proof.
  induction pre as [|[k v] pre IH]; simpl; intros H; [reflexivity|].
  destruct (String.eqb_spec k a) as [->|_]; [tauto|].
  apply IH. tauto.
Qed.

(** A [NULL AS a] item gives a null [a] in every record. *)
Lemma select_null con pre a post t w o n recs :
  select con (pre ++ NullAs a :: post) t w o n = Return recs ->
  ~ In a (map alias pre) ->
  Forall (fun r => get a r = VNull) recs.
Proof.
  intros H Hfresh.
  apply select_Return in H as (tb & sel & keep & oi & _ & Hsel & _ & _ & ->).
  assert (Hsplit : exists sp sq,
             sel = sp ++ (a, None) :: sq /\ map fst sp = map alias pre).
  { clear - Hsel. revert sel Hsel.
    induction pre as [|it pre IH]; simpl; intros sel H.
    - apply bind_Return in H as (sq & _ & H).
      injection H as <-. exists [], sq. auto.
    - apply bind_Return in H as (p & Hp & H).
      apply bind_Return in H as (sel' & Hsel' & H). injection H as <-.
      destruct (IH _ Hsel') as (sp & sq & -> & Hk).
      exists (p :: sp), sq. split; [reflexivity|]. simpl. f_equal; [|exact Hk].
      destruct it as [c b|b]; simpl in Hp.
      + apply bind_Return in Hp as (i & _ & Hp). now injection Hp as <-.
      + now injection Hp as <-. }
  destruct Hsplit as (sp & sq & -> & Hk).
  apply Forall_forall. intros r Hr.
  apply in_map_iff in Hr as (row & <- & _).
  unfold project. rewrite map_app. rewrite get_skip.
  - simpl. now rewrite String.eqb_refl.
  - rewrite map_map. rewrite (map_ext _ fst) by reflexivity.
    now rewrite Hk.
Qed.

End GuardFacts.

(** ** The readers, further *)

Module ReaderExtras.

Import PyFacts SqliteFacts AppFacts GuardFacts.







Lemma to_seconds_nth L df col secs :
  App._to_seconds L (App.series df col) = Return secs ->
  forall i, (i < List.length df)%nat ->
            seconds_of L (get col (nth i df [])) (nth i secs None).
Proof.
  unfold App._to_seconds, Pandas.to_timedelta, App.series. intros H i Hi.
  apply bind_Return in H as (td & Htd & H). injection H as <-.
  apply mapM_Forall2 in Htd.
  pose proof (Forall2_length_eq _ _ _ Htd) as Hlen.
  rewrite length_map in Hlen.
  exists (nth i td None). split.
  - apply (Forall2_nth_error _ _ _ Htd i).
    + rewrite nth_error_map.
      rewrite (nth_error_nth' df []) by exact Hi. reflexivity.
    + apply nth_error_nth'. lia.
  - change None with (Pandas.total_seconds None) at 1. apply map_nth.
Qed.

(** What [fetch_exercise] has computed when it answers: the columns it
    found, the frame it selected, and each record cell by cell. *)
Lemma fetch_exercise_rows L con days recs :
  App.fetch_exercise L con days = Return recs ->
  exists cols df,
    App._get_columns con "daily_summary" = Return cols /\
    select con
      [Col "day" "date";
       Col "moderate_activity_time" "moderate_activity_time";
       Col "vigorous_activity_time" "vigorous_activity_time";
       Col "intensity_time_goal" "intensity_time_goal";
       App.optional cols "distance";
       App.optional cols "calories_active";
       App.optional cols "calories_total"]
      "daily_summary" None "day" days = Return df /\
    Forall (fun r =>
              exists row,
                In row df /\
                App.distance r = get "distance" row /\
                App.calories_active r = get "calories_active" row /\
                App.calories_total r = get "calories_total" row /\
                seconds_of L (App.moderate_activity_time r)
                  (App.moderate_activity_seconds r) /\
                seconds_of L (App.vigorous_activity_time r)
                  (App.vigorous_activity_seconds r) /\
                seconds_of L (App.intensity_time_goal r)
                  (App.intensity_time_goal_seconds r) /\
                exists n,
                  App.total_activity_seconds r = Some n /\
                  (inject_Z n ==
                   Pandas.fillna0 (App.moderate_activity_seconds r)
                   + Pandas.fillna0 (App.vigorous_activity_seconds r))%Q)
      recs.
Proof.
  unfold App.fetch_exercise. intros H.
  apply bind_Return in H as (te & _ & H).
  destruct te; simpl in H; [|discriminate].
  apply bind_Return in H as (cols & Hcols & H).
  destruct (negb _); [discriminate|].
  apply bind_Return in H as (df & Hdf & H).
  apply bind_Return in H as (mo & Hm & H).
  apply bind_Return in H as (vi & Hv & H).
  apply bind_Return in H as (go & Hg & H).
  apply bind_Return in H as (to & Ht & H).
  injection H as <-.
  exists cols, df. split; [exact Hcols|]. split; [exact Hdf|].
  pose proof (to_seconds_length _ _ _ Hm) as Lm.
  pose proof (to_seconds_length _ _ _ Hv) as Lv.
  unfold App.series in Lm, Lv. rewrite length_map in Lm, Lv.
  apply mapM_Forall2 in Ht.
  pose proof (Forall2_length_eq _ _ _ Ht) as Lt.
  unfold App.add_filled in Lt, Ht.
  rewrite length_map, length_combine, Lm, Lv, Nat.min_id in Lt.
  apply Forall_forall. intros r Hr.
  apply in_map_iff in Hr as (i & <- & Hi). apply in_seq in Hi. simpl.
  assert (Hlt : (i < List.length df)%nat) by lia.
  exists (nth i df []). split; [now apply nth_In|].
  repeat (split; [reflexivity|]).
  split; [now apply to_seconds_nth|].
  split; [now apply to_seconds_nth|].
  split; [now apply to_seconds_nth|].
  assert (Hto : nth_error to i = Some (nth i to None))
    by (apply nth_error_nth'; lia).
  assert (Hsum : nth_error
                   (map (fun p => Some (Pandas.fillna0 (fst p)
                                        + Pandas.fillna0 (snd p))%Q)
                      (combine mo vi)) i
                 = Some (Some (Pandas.fillna0 (nth i mo None)
                               + Pandas.fillna0 (nth i vi None))%Q)).
  { rewrite nth_error_map.
    rewrite (nth_error_nth' (combine mo vi) (None, None))
      by (rewrite length_combine; lia).
    simpl. now rewrite combine_nth by lia. }
  pose proof (Forall2_nth_error _ _ _ Ht i _ _ Hsum Hto) as Hcast.
  now apply astype_Int64_Some in Hcast.
Qed.

Lemma optional_alias cols c : alias (App.optional cols c) = c.
Proof. unfold App.optional. now destruct (App.contains c cols). Qed.

(** X4.  [fetch_exercise] needs the table [daily_summary] and its four time
    columns, and says so with a RuntimeError when they are missing; the
    columns [distance], [calories_active] and [calories_total] are
    optional: where the table has none of that name, the field is null in
    every record of the answer. *)
Theorem fetch_exercise_optional_columns (L : Pandas.lib) (con : database)
    (days : Z) :
  (db_ok con = true -> ~ In "daily_summary" (table_names con) ->
   App.fetch_exercise L con days
   = raise RuntimeError "daily_summary table not found") /\
  (forall tb,
      db_ok con = true -> In "daily_summary" (table_names con) ->
      find_table "daily_summary" (db_tables con) = Some tb ->
      App.issubset ["day"; "moderate_activity_time";
                    "vigorous_activity_time"; "intensity_time_goal"]
        (tbl_cols tb) = false ->
      exists msg, App.fetch_exercise L con days = raise RuntimeError msg) /\
  (forall recs cols,
      App.fetch_exercise L con days = Return recs ->
      App._get_columns con "daily_summary" = Return cols ->
      (App.contains "distance" cols = false ->
       Forall (fun r => App.distance r = VNull) recs) /\
      (App.contains "calories_active" cols = false ->
       Forall (fun r => App.calories_active r = VNull) recs) /\
      (App.contains "calories_total" cols = false ->
       Forall (fun r => App.calories_total r = VNull) recs)).
Proof.
  split; [|split].
  - intros Hok Hno. unfold App.fetch_exercise.
    now rewrite (table_exists_false con _ Hok Hno).
  - intros tb Hok Hin Hf Hsub. unfold App.fetch_exercise.
    rewrite (table_exists_true con _ Hok Hin). simpl.
    rewrite (get_columns_found con _ tb Hok Hf).
    simpl in Hsub |- *. rewrite Hsub. simpl. eauto.
  - intros recs cols H Hcols.
    apply fetch_exercise_rows in H as (cols' & df & Hcols' & Hdf & Hrows).
    assert (cols' = cols) as -> by congruence.
    assert (Hfield : forall a pre post,
               [Col "day" "date";
                Col "moderate_activity_time" "moderate_activity_time";
                Col "vigorous_activity_time" "vigorous_activity_time";
                Col "intensity_time_goal" "intensity_time_goal";
                App.optional cols "distance";
                App.optional cols "calories_active";
                App.optional cols "calories_total"]
               = pre ++ NullAs a :: post ->
               ~ In a (map alias pre) ->
               Forall (fun row => get a row = VNull) df).
    { intros a pre post E Hfresh. rewrite E in Hdf.
      eapply select_null; eassumption. }
    repeat split; intros Hc; apply Forall_forall; intros r Hr;
      rewrite Forall_forall in Hrows;
      destruct (Hrows r Hr) as (row & Hrow & Hd & Ha & Ht & _).
    + rewrite Hd. clear Hd Ha Ht. revert row Hrow. apply Forall_forall.
      apply (Hfield "distance"
               [Col "day" "date";
                Col "moderate_activity_time" "moderate_activity_time";
                Col "vigorous_activity_time" "vigorous_activity_time";
                Col "intensity_time_goal" "intensity_time_goal"]
               [App.optional cols "calories_active";
                App.optional cols "calories_total"]).
      * unfold App.optional at 1. now rewrite Hc.
      * simpl. intros [E|[E|[E|[E|[]]]]]; discriminate.
    + rewrite Ha. clear Hd Ha Ht. revert row Hrow. apply Forall_forall.
      apply (Hfield "calories_active"
               [Col "day" "date";
                Col "moderate_activity_time" "moderate_activity_time";
                Col "vigorous_activity_time" "vigorous_activity_time";
                Col "intensity_time_goal" "intensity_time_goal";
                App.optional cols "distance"]
               [App.optional cols "calories_total"]).
      * unfold App.optional at 2. now rewrite Hc.
      * simpl. rewrite optional_alias.
        intros [E|[E|[E|[E|[E|[]]]]]]; discriminate.
    + rewrite Ht. clear Hd Ha Ht. revert row Hrow. apply Forall_forall.
      apply (Hfield "calories_total"
               [Col "day" "date";
                Col "moderate_activity_time" "moderate_activity_time";
                Col "vigorous_activity_time" "vigorous_activity_time";
                Col "intensity_time_goal" "intensity_time_goal";
                App.optional cols "distance";
                App.optional cols "calories_active"] []).
      * unfold App.optional at 3. now rewrite Hc.
      * simpl. rewrite !optional_alias.
        intros [E|[E|[E|[E|[E|[E|[]]]]]]]; discriminate.
Qed.

Lemma fetch_exercise_optional_columns_witness :
  App.fetch_exercise Sample.strict Sample.winter 30
  = raise RuntimeError
      ("daily_summary missing time columns: need "
       ++ App.repr ["day"; "moderate_activity_time";
                    "vigorous_activity_time"; "intensity_time_goal"]
       ++ ", have " ++ App.repr ["day"; "steps"; "stress_avg"]) /\
  exists recs,
    App.fetch_exercise Sample.strict bare 30 = Return recs /\
    List.length recs = 3%nat /\
    Forall (fun r => App.distance r = VNull) recs.
Proof.
  split; [reflexivity|].
  destruct (fetch_exercise_optional_columns Sample.strict bare 30)
    as (_ & _ & H).
  eexists. split; [vm_compute; reflexivity|]. split; [reflexivity|].
  apply (H _ _ eq_refl eq_refl). reflexivity.
Defined.

Lemma seconds_of_null L secs : seconds_of L VNull secs -> secs = None.
Proof. intros (td & Htd & ->). simpl in Htd. now injection Htd as <-. Qed.

Lemma seconds_of_hms L h m s secs :
  field h -> field m -> field s -> fits h m s ->
  seconds_of L (VText (hms_text h m s)) secs ->
  secs = Some (hms_seconds h m s * 1000000000 # 1000000000).
Proof.
  intros Hh Hm Hs Hf (td & Htd & ->).
  rewrite (NormalizerFacts.cell_hms L h m s Hh Hm Hs
             (NormalizerClaims.fits_bound h m s Hh Hm Hs Hf)) in Htd.
  now injection Htd as <-.
Qed.

Lemma seconds_of_unparsable L t secs :
  t = "" \/ unparsable L t -> seconds_of L (VText t) secs -> secs = None.
Proof.
  intros Ht (td & Htd & ->).
  rewrite (NormalizerFacts.cell_unparsable L t Ht) in Htd.
  now injection Htd as <-.
Qed.

Lemma whole_Q (k n : Z) (q : Q) :
  (inject_Z n == (k * 1000000000 # 1000000000) + q)%Q ->
  (inject_Z n == inject_Z k + q)%Q.
Proof.
  intros H. rewrite H. apply Qplus_comp; [|reflexivity].
  unfold Qeq. simpl. lia.
Qed.

(** X5.  In every record [fetch_exercise] returns, each seconds field is what
    pandas derives from the text beside it: null (NaN) for a null, empty or
    unparsable text, H*3600 + M*60 + S for a text [HH:MM:SS].  So
    [total_activity_seconds] is 0 when both activity times are null, the
    seconds of the one that is given when the other is null, and the sum
    of both when both are texts [HH:MM:SS]. *)
Theorem exercise_seconds_follow_texts (L : Pandas.lib) (con : database)
    (days : Z) (recs : list App.ExerciseRecord) :
  App.fetch_exercise L con days = Return recs ->
  Forall (fun r =>
            (forall raw secs,
                In (raw, secs)
                  [(App.moderate_activity_time r,
                    App.moderate_activity_seconds r);
                   (App.vigorous_activity_time r,
                    App.vigorous_activity_seconds r);
                   (App.intensity_time_goal r,
                    App.intensity_time_goal_seconds r)] ->
                (raw = VNull -> secs = None) /\
                (forall t, raw = VText t -> t = "" \/ unparsable L t ->
                           secs = None) /\
                (forall h m s,
                    raw = VText (hms_text h m s) ->
                    field h -> field m -> field s -> fits h m s ->
                    exists q, secs = Some q /\
                              (q == inject_Z (hms_seconds h m s))%Q)) /\
            (App.moderate_activity_time r = VNull ->
             App.vigorous_activity_time r = VNull ->
             App.total_activity_seconds r = Some 0) /\
            (forall h m s,
                App.moderate_activity_time r = VText (hms_text h m s) ->
                field h -> field m -> field s -> fits h m s ->
                App.vigorous_activity_time r = VNull ->
                App.total_activity_seconds r = Some (hms_seconds h m s)) /\
            (forall h m s,
                App.moderate_activity_time r = VNull ->
                App.vigorous_activity_time r = VText (hms_text h m s) ->
                field h -> field m -> field s -> fits h m s ->
                App.total_activity_seconds r = Some (hms_seconds h m s)) /\
            (forall h m s h' m' s',
                App.moderate_activity_time r = VText (hms_text h m s) ->
                field h -> field m -> field s -> fits h m s ->
                App.vigorous_activity_time r = VText (hms_text h' m' s') ->
                field h' -> field m' -> field s' -> fits h' m' s' ->
                App.total_activity_seconds r
                = Some (hms_seconds h m s + hms_seconds h' m' s')))
    recs.
Proof.
  intros H.
  apply fetch_exercise_rows in H as (cols & df & _ & _ & Hrows).
  eapply Forall_impl; [|exact Hrows]. clear Hrows.
  intros r (row & _ & _ & _ & _ & Hm & Hv & Hg & n & Hn & Hq).
  split; [|split; [|split; [|split]]].
  - intros raw secs [E|[E|[E|[]]]]; injection E as <- <-.
    all: split; [|split].
    all: try (intros E; rewrite E in *;
              eapply seconds_of_null; eassumption).
    all: try (intros t E Ht; rewrite E in *;
              eapply seconds_of_unparsable; eassumption).
    all: intros h m s E Hh Hms Hs Hf; rewrite E in *;
      eexists;
      (split; [apply (seconds_of_hms L h m s _ Hh Hms Hs Hf); assumption|]);
      unfold Qeq; simpl; lia.
  - intros Em Ev. rewrite Em in Hm. rewrite Ev in Hv.
    apply seconds_of_null in Hm, Hv. rewrite Hm, Hv in Hq. simpl in Hq.
    rewrite Hn. f_equal. unfold Qeq in Hq. simpl in Hq. lia.
  - intros h m s Em Hh Hms Hs Hf Ev. rewrite Em in Hm. rewrite Ev in Hv.
    apply seconds_of_null in Hv.
    apply (seconds_of_hms L h m s _ Hh Hms Hs Hf) in Hm.
    rewrite Hm, Hv in Hq. simpl Pandas.fillna0 in Hq.
    apply whole_Q in Hq. rewrite Hn. f_equal.
    rewrite Qplus_0_r in Hq. exact (proj1 (inject_Z_injective _ _) Hq).
  - intros h m s Em Ev Hh Hms Hs Hf. rewrite Em in Hm. rewrite Ev in Hv.
    apply seconds_of_null in Hm.
    apply (seconds_of_hms L h m s _ Hh Hms Hs Hf) in Hv.
    rewrite Hm, Hv in Hq. simpl Pandas.fillna0 in Hq.
    rewrite Qplus_comm in Hq.
    apply whole_Q in Hq. rewrite Hn. f_equal.
    rewrite Qplus_0_r in Hq. exact (proj1 (inject_Z_injective _ _) Hq).
  - intros h m s h' m' s' Em Hh Hms Hs Hf Ev Hh' Hms' Hs' Hf'.
    rewrite Em in Hm. rewrite Ev in Hv.
    apply (seconds_of_hms L h m s _ Hh Hms Hs Hf) in Hm.
    apply (seconds_of_hms L h' m' s' _ Hh' Hms' Hs' Hf') in Hv.
    rewrite Hm, Hv in Hq. simpl Pandas.fillna0 in Hq.
    apply whole_Q in Hq. rewrite Qplus_comm in Hq. apply whole_Q in Hq.
    rewrite Hn. f_equal. rewrite <- inject_Z_plus in Hq.
    apply (proj1 (inject_Z_injective _ _)) in Hq. lia.
Qed.

Lemma exercise_seconds_follow_texts_witness :
  exists recs,
    App.fetch_exercise Sample.strict bare 30 = Return recs /\
    map App.total_activity_seconds recs = [Some 0; Some 930; Some 1200] /\
    Forall (fun r =>
              App.moderate_activity_time r = VNull ->
              App.vigorous_activity_time r = VNull ->
              App.total_activity_seconds r = Some 0) recs.
Proof.
  eexists. split; [vm_compute; reflexivity|]. split; [reflexivity|].
  eapply Forall_impl;
    [|apply (exercise_seconds_follow_texts Sample.strict bare 30);
      reflexivity].
  intros r (_ & Hnull & _). exact Hnull.
Defined.

Lemma from_table_Return con t tb :
  from_table con t = Return tb ->
  db_ok con = true /\ find_table t (db_tables con) = Some tb.
Proof.
  unfold from_table. destruct (db_ok con); [|discriminate].
  destruct (find_table t (db_tables con)); [|discriminate].
  intros H. now injection H as <-.
Qed.

Lemma table_exists_usable con name b :
  App._table_exists con name = Return b -> db_ok con = true.
Proof.
  unfold App._table_exists, select_master.
  destruct (db_ok con); [reflexivity | discriminate].
Qed.

Lemma left_join_length a b li ri :
  (List.length a <= List.length (left_join a b li ri))%nat.
Proof.
  unfold left_join. induction a as [|x a IH]; [simpl; lia|].
  cbn [flat_map]. rewrite length_app.
  set (rest := flat_map _ a) in *.
  destruct (filter (fun y => value_eqb (cell y ri) (cell x li)) b);
    cbn [List.length map]; lia.
Qed.

Lemma filter_all {A : Type} (l : list A) : filter (fun _ => true) l = l.
Proof. induction l; simpl; congruence. Qed.

Lemma limit_30 {A : Type} (l : list A) :
  List.length (limit 30 l) = Nat.min 30 (List.length l).
Proof. apply (limit_length_exact 30 l). Qed.

(** X6.  Every record [fetch_daily_summary] returns has the keys [date],
    [steps], [restingHeartRate], [sleepSeconds], whichever query was run.
    The join never loses a day: the answer has at least as many records as
    [daily_summary] has rows, up to 30, and never more than 30.  Without a
    table [sleep_summary], or without its column [sleep_seconds], there is
    exactly one record per row (up to 30) and [sleepSeconds] is null in
    each. *)
Theorem daily_summary_shape (con : database) (recs : list record) :
  App.fetch_daily_summary con = Return recs ->
  Forall (fun r =>
            keys r = ["date"; "steps"; "restingHeartRate"; "sleepSeconds"])
    recs /\
  exists tb,
    find_table "daily_summary" (db_tables con) = Some tb /\
    (Nat.min 30 (List.length (tbl_rows tb)) <= List.length recs)%nat /\
    (List.length recs <= 30)%nat /\
    (~ In "sleep_summary" (table_names con) \/
     App._col_exists con "sleep_summary" "sleep_seconds" = Return false ->
     List.length recs = Nat.min 30 (List.length (tbl_rows tb)) /\
     Forall (fun r => get "sleepSeconds" r = VNull) recs).
Proof.
  unfold App.fetch_daily_summary. intros H.
  apply bind_Return in H as (te & Hte & H).
  apply bind_Return in H as (ce & Hce & H).
  pose proof (table_exists_usable _ _ _ Hte) as Hok.
  destruct ce.
  - unfold App.daily_summary_join in H.
    apply bind_Return in H as (ds & Hds & H).
    apply bind_Return in H as (ss & _ & H).
    apply bind_Return in H as (day & _ & H).
    apply bind_Return in H as (steps & _ & H).
    apply bind_Return in H as (rhr & _ & H).
    apply bind_Return in H as (secs & _ & H).
    apply bind_Return in H as (sday & _ & H).
    injection H as <-.
    apply from_table_Return in Hds as [_ Hds].
    split.
    + apply Forall_forall. intros r Hr.
      apply in_map_iff in Hr as (p & <- & _). reflexivity.
    + exists ds. split; [exact Hds|].
      rewrite length_map, limit_30.
      rewrite <- (Permutation_length (order_by_desc_perm _ _)).
      pose proof (left_join_length (tbl_rows ds) (tbl_rows ss) day sday).
      split; [lia|]. split; [lia|].
      intros [Hno|Hcol]; exfalso.
      * rewrite (table_exists_false con _ Hok Hno) in Hte.
        injection Hte as <-. discriminate.
      * destruct te; [congruence | discriminate].
  - pose proof (select_keys _ _ _ _ _ _ _ H) as Hkeys.
    pose proof (select_null con
                  [Col "day" "date"; Col "steps" "steps";
                   Col "rhr" "restingHeartRate"]
                  "sleepSeconds" [] _ _ _ _ _ H) as Hnull.
    apply select_Return in H
      as (tb & sel & keep & oi & Htb & _ & _ & -> & ->).
    apply from_table_Return in Htb as [_ Htb].
    split; [exact Hkeys|]. exists tb. split; [exact Htb|].
    assert (Hlen : List.length
                     (map (project sel)
                        (limit 30
                           (order_by_desc (fun r => cell r oi)
                              (filter (fun _ => true) (tbl_rows tb)))))
                   = Nat.min 30 (List.length (tbl_rows tb))).
    { rewrite length_map, limit_30, filter_all.
      now rewrite <- (Permutation_length (order_by_desc_perm _ _)). }
    rewrite Hlen. split; [lia|]. split; [lia|].
    intros _. split; [reflexivity|]. apply Hnull.
    simpl. intros [E|[E|[E|[]]]]; discriminate.
Qed.

Lemma daily_summary_shape_witness :
  exists recs,
    App.fetch_daily_summary days_only = Return recs /\
    List.length recs = 3%nat /\
    Forall (fun r => get "sleepSeconds" r = VNull) recs.
Proof.
  eexists. split; [vm_compute; reflexivity|].
  destruct (daily_summary_shape days_only _ eq_refl)
    as (_ & tb & Htb & _ & _ & Hfallback).
  injection Htb as <-.
  destruct Hfallback as [Hlen Hnull].
  - left. simpl. intros [E|[]]. discriminate.
  - split; [reflexivity | exact Hnull].
Defined.




End ReaderExtras.

(** ** Erasing, further *)

Module EraseExtras.

Import PyFacts GuardFacts HandlerFacts.












Lemma remove_entries_all (items : list Routes.entry) :
  forallb Routes.can_remove items = true ->
  Routes.remove_entries items = (Return tt, []).
Proof.
  induction items as [|e items IH]; simpl; [reflexivity|].
  intros H. apply andb_prop in H as [He Hitems].
  rewrite He. now apply IH.
Qed.


(** X10.  A confirmed erase of a data root whose entries can all be removed
    answers 200 with the path cleared; afterwards the root still exists and
    is empty, the cached session is gone, and the log and the config are as
    they were. *)
Theorem routes_erase_empties_root {C : Type} (DATA_ROOT : string)
    (args : list (string * string)) (w : Routes.world C)
    (items : list Routes.entry) :
  Routes.data_root w = Some items ->
  args_get "confirm" args = Some "true" ->
  forallb Routes.can_remove items = true ->
  Routes.garth_session w <> Some false ->
  Routes.erase_data DATA_ROOT args w
  = (Return (mkResponse 200
               (Jsonify (JObj [("status", JStr "erased_all_contents");
                               ("path_cleared", JStr DATA_ROOT)]))),
     Routes.mkWorld (Some []) None (Routes.log_file w)
       (Routes.log_writable w) (Routes.config_state w)).
Proof.
  intros Hroot Hconfirm Hall Hsession.
  unfold Routes.erase_data. rewrite Hroot, Hconfirm. simpl.
  unfold io_try, io_bind, Routes.clear_root. rewrite Hroot.
  rewrite (remove_entries_all items Hall). simpl.
  destruct (Routes.garth_session w) as [[|]|]; simpl;
    [reflexivity | now contradiction Hsession | reflexivity].
Qed.

Lemma routes_erase_empties_root_witness :
  Routes.erase_data "/home/u/HealthData" [("confirm", "true")]
    Sample.routes_world
  = (Return (mkResponse 200
               (Jsonify (JObj [("status", JStr "erased_all_contents");
                               ("path_cleared",
                                JStr "/home/u/HealthData")]))),
     Routes.mkWorld (Some []) None None true Sample.stored_config).
Proof.
  apply (routes_erase_empties_root "/home/u/HealthData"
           [("confirm", "true")] Sample.routes_world Sample.data_root).
  - reflexivity.
  - reflexivity.
  - reflexivity.
  - discriminate.
Defined.



End EraseExtras.

(** ** The config document, further *)

Module ConfigExtras.

Import PyFacts HandlerFacts.

Lemma lookup_store_other (k k' : string) (v : json)
    (kv : list (string * json)) :
  k <> k' -> lookup k (store k' v kv) = lookup k kv.
Proof.
  intros Hne. induction kv as [|[k0 v0] kv IH]; simpl.
  - destruct (String.eqb_spec k' k); [congruence | reflexivity].
  - destruct (String.eqb_spec k0 k') as [->|Hk0]; simpl.
    + destruct (String.eqb_spec k' k); [congruence | reflexivity].
    + now rewrite IH.
Qed.

(** What replacing one member of one section leaves alone. *)
Lemma set_member_frame (section key : string) (v : json)
    (kv mine : list (string * json)) :
  lookup section kv = Some (JObj mine) ->
  let cfg' := JObj (store section (JObj (store key v mine)) kv) in
  (forall k, k <> section -> member k cfg' = member k (JObj kv)) /\
  (forall s j, s <> section \/ j <> key ->
               member2 s j cfg' = member2 s j (JObj kv)) /\
  member2 section key cfg' = Some v.
Proof.
  intros Hmine cfg'. unfold cfg', member2. simpl. split; [|split].
  - intros k Hk. now apply lookup_store_other.
  - intros s j Hsj. destruct (String.eqb_spec s section) as [->|Hs].
    + rewrite lookup_store, Hmine. simpl.
      apply lookup_store_other. tauto.
    + now rewrite lookup_store_other.
  - rewrite lookup_store. simpl. apply lookup_store.
Qed.

(** X12.  [get_config] only reads, and blanks nothing but the password:
    when it answers, the world is the one [read_cfg] left, the status is
    200, and the document returned agrees with the stored one on every
    member outside [credentials] and on every member of [credentials]
    other than [password]; without a password member it is the stored
    document itself. *)
Theorem get_config_changes_only_the_password {C : Type}
    (read_cfg : io (Routes.world C) json) (w : Routes.world C)
    (resp : response) (w' : Routes.world C) :
  Routes.get_config read_cfg w = (Return resp, w') ->
  exists cfg doc,
    read_cfg w = (Return cfg, w') /\
    resp = mkResponse 200 (Jsonify doc) /\
    (forall k, k <> "credentials" -> member k doc = member k cfg) /\
    (forall j, j <> "password" ->
               member2 "credentials" j doc = member2 "credentials" j cfg) /\
    (member2 "credentials" "password" cfg = None -> doc = cfg).
Proof.
  unfold Routes.get_config, io_bind, io_lift, io_ret.
  destruct (read_cfg w) as [[cfg|e] w1]; [|discriminate].
  assert (Hsame :
            (Return (mkResponse 200 (Jsonify cfg)), w1) = (Return resp, w') ->
            exists cfg0 doc,
              (Return cfg, w1) = (Return cfg0, w') /\
              resp = mkResponse 200 (Jsonify doc) /\
              (forall k, k <> "credentials" ->
                         member k doc = member k cfg0) /\
              (forall j, j <> "password" ->
                         member2 "credentials" j doc
                         = member2 "credentials" j cfg0) /\
              (member2 "credentials" "password" cfg0 = None -> doc = cfg0)).
  { intros H. injection H as <- <-. exists cfg, cfg. auto. }
  destruct cfg as [| b | x | s | l | kv]; simpl; try discriminate.
  - destruct (PyJson.is_substring "credentials" s); simpl;
      [discriminate | exact Hsame].
  - destruct (existsb (PyJson.is_str "credentials") l); simpl;
      [discriminate | exact Hsame].
  - destruct (lookup "credentials" kv) as [creds|] eqn:Ec; simpl;
      [|exact Hsame].
    destruct creds as [| b | x | s | l | ckv]; simpl; try discriminate.
    + destruct (PyJson.is_substring "password" s); simpl;
        [discriminate | exact Hsame].
    + destruct (existsb (PyJson.is_str "password") l); simpl;
        [discriminate | exact Hsame].
    + destruct (lookup "password" ckv) as [pw|] eqn:Ep; simpl;
        [|exact Hsame].
      rewrite ?Ec. simpl. intros H. injection H as <- <-.
      destruct (set_member_frame "credentials" "password" (JStr "")
                  kv ckv Ec) as (Hk & Hj & _).
      eexists (JObj kv), _. split; [reflexivity|]. split; [reflexivity|].
      split; [exact Hk|]. split.
      * intros j Hne. apply Hj. now right.
      * unfold member2. simpl. rewrite Ec. simpl. congruence.
Qed.

Lemma get_config_changes_only_the_password_witness :
  exists doc,
    Routes.get_config Sample.read_cfg Sample.routes_world
    = (Return (mkResponse 200 (Jsonify doc)), Sample.routes_world) /\
    member2 "credentials" "user" doc = Some (JStr "me@example.org") /\
    member "garmin" doc = Some (JObj [("domain", JStr "garmin.com")]).
Proof.
  destruct (get_config_changes_only_the_password Sample.read_cfg
              Sample.routes_world _ _ eq_refl)
    as (cfg & doc & Hread & Hresp & Hk & Hj & _).
  injection Hread as <-. injection Hresp as <-.
  eexists. split; [reflexivity|]. split.
  - rewrite Hj by discriminate. reflexivity.
  - rewrite Hk by discriminate. reflexivity.
Defined.

Lemma untouched_refl section keys cfg :
  untouched_outside section keys cfg cfg.
Proof. split; reflexivity. Qed.

Lemma untouched_trans section keys a b c :
  untouched_outside section keys a b ->
  untouched_outside section keys b c ->
  untouched_outside section keys a c.
Proof.
  intros [H1 H2] [H3 H4]. split.
  - intros k Hk. now rewrite H3, H1.
  - intros s j Hsj. now rewrite H4, H2.
Qed.

Lemma untouched_more section keys keys' a b :
  incl keys keys' ->
  untouched_outside section keys a b ->
  untouched_outside section keys' a b.
Proof.
  intros Hincl [H1 H2]. split; [exact H1|].
  intros s j [Hs|Hj]; apply H2; [now left | right; auto].
Qed.

Lemma getitem_Return x k v :
  PyJson.getitem x k = Return v ->
  exists kv, x = JObj kv /\ lookup k kv = Some v.
Proof.
  destruct x as [| | | | |kv]; simpl; try discriminate.
  destruct (lookup k kv) as [v'|] eqn:E; [|discriminate].
  intros H. injection H as <-. eauto.
Qed.

Lemma setitem_Return x k v x' :
  PyJson.setitem x k v = Return x' ->
  exists kv, x = JObj kv /\ x' = JObj (store k v kv).
Proof.
  destruct x as [| | | | |kv]; simpl; try discriminate.
  intros H. injection H as <-. eauto.
Qed.

(** One turn of the loop that copies the recognized keys. *)
Lemma copy_step section k (present : bool) given cfg cfg1 :
  (if present
   then v <- PyJson.getitem given k ;;
        mine <- PyJson.getitem cfg section ;;
        mine' <- PyJson.setitem mine k v ;;
        PyJson.setitem cfg section mine'
   else Return cfg) = Return cfg1 ->
  untouched_outside section [k] cfg cfg1 /\
  (present = true ->
   exists v, PyJson.getitem given k = Return v /\
             member2 section k cfg1 = Some v).
Proof.
  destruct present.
  - intros H.
    apply bind_Return in H as (v & Hv & H).
    apply bind_Return in H as (mine & Hmine & H).
    apply bind_Return in H as (mine' & Hmine' & H).
    apply getitem_Return in Hmine as (kv & -> & Hsec).
    apply setitem_Return in Hmine' as (mkv & -> & ->).
    simpl in H. injection H as <-.
    destruct (set_member_frame section k v kv mkv Hsec) as (Hk & Hj & Hset).
    split.
    + split; [exact Hk|]. intros s j [Hs|Hj']; apply Hj; [now left|].
      right. intros ->. apply Hj'. now left.
    + intros _. eauto.
  - intros H. injection H as <-. split; [apply untouched_refl|discriminate].
Qed.

Lemma copy_keys_frame section payload :
  forall keys cfg cfg',
    Routes.copy_keys section keys payload cfg = Return cfg' ->
    untouched_outside section keys cfg cfg'.
Proof.
  intros ks. induction ks as [|k ks IH]; simpl; intros cfg cfg' H.
  - injection H as <-. apply untouched_refl.
  - apply bind_Return in H as (given & _ & H).
    apply bind_Return in H as (present & _ & H).
    apply bind_Return in H as (cfg1 & Hstep & H).
    apply copy_step in Hstep as [Hstep _].
    eapply untouched_trans.
    + eapply untouched_more; [|exact Hstep]. intros x [->|[]]. now left.
    + eapply untouched_more; [|exact (IH _ _ H)]. intros x Hx. now right.
Qed.

Lemma member2_Some section j payload v :
  member2 section j payload = Some v ->
  exists given,
    PyJson.contains section payload = Return true /\
    PyJson.getitem payload section = Return given /\
    PyJson.contains j given = Return true /\
    PyJson.getitem given j = Return v.
Proof.
  unfold member2, member.
  destruct payload as [| | | | |p]; try discriminate.
  destruct (lookup section p) as [given|] eqn:Es; [|discriminate].
  destruct given as [| | | | |g]; try discriminate.
  intros Hj. exists (JObj g). simpl. rewrite Es, Hj. auto.
Qed.

Lemma copy_keys_copies section payload j v :
  member2 section j payload = Some v ->
  forall keys cfg cfg',
    Routes.copy_keys section keys payload cfg = Return cfg' ->
    NoDup keys -> In j keys ->
    member2 section j cfg' = Some v.
Proof.
  intros Hv.
  destruct (member2_Some _ _ _ _ Hv) as (given & _ & Hgiven & Hin & Hget).
  intros ks. induction ks as [|k ks IH]; simpl; intros cfg cfg' H Hnd Hj;
    [contradiction|].
  inversion Hnd as [|x l Hfresh Hnd']; subst.
  rewrite Hgiven in H. simpl in H.
  apply bind_Return in H as (present & Hpresent & H).
  apply bind_Return in H as (cfg1 & Hstep & H).
  destruct Hj as [->|Hj].
  - rewrite Hin in Hpresent. injection Hpresent as <-.
    apply (copy_step section j true given) in Hstep as [_ Hset].
    destruct (Hset eq_refl) as (v' & Hv' & Hm).
    assert (v' = v) as -> by congruence.
    apply copy_keys_frame in H as [_ Hkeep].
    rewrite Hkeep; [exact Hm | now right].
  - eapply IH; eassumption.
Qed.

Lemma setdefault_frame cfg section cfg' :
  PyJson.setdefault cfg section (JObj []) = Return cfg' ->
  untouched_outside section [] cfg cfg'.
Proof.
  destruct cfg as [| | | | |kv]; simpl; try discriminate.
  destruct (lookup section kv) as [old|] eqn:E; intros H;
    injection H as <-; [apply untouched_refl|].
  unfold untouched_outside, member2. simpl. split.
  - intros k Hk. now apply lookup_store_other.
  - intros s j _. destruct (String.eqb_spec s section) as [->|Hs].
    + now rewrite lookup_store, E.
    + now rewrite lookup_store_other.
Qed.

Lemma merge_section_frame section keys payload cfg cfg' :
  Routes.merge_section section keys payload cfg = Return cfg' ->
  untouched_outside section keys cfg cfg'.
Proof.
  unfold Routes.merge_section. intros H.
  apply bind_Return in H as (has & _ & H). destruct has.
  - apply bind_Return in H as (cfg1 & Hdef & H).
    eapply untouched_trans.
    + eapply untouched_more; [|exact (setdefault_frame _ _ _ Hdef)].
      intros x [].
    + now apply copy_keys_frame in H.
  - injection H as <-. apply untouched_refl.
Qed.

Lemma merge_section_copies section keys payload cfg cfg' j v :
  Routes.merge_section section keys payload cfg = Return cfg' ->
  NoDup keys -> In j keys ->
  member2 section j payload = Some v ->
  member2 section j cfg' = Some v.
Proof.
  unfold Routes.merge_section. intros H Hnd Hj Hv.
  destruct (member2_Some _ _ _ _ Hv) as (given & Hhas & _).
  rewrite Hhas in H. simpl in H.
  apply bind_Return in H as (cfg1 & _ & H).
  eapply copy_keys_copies; eassumption.
Qed.

(** What [merge_domain] has done when it answers: nothing, or set
    [garmin.domain] to the domain of the payload. *)
Lemma merge_domain_Return payload cfg cfg' :
  Routes.merge_domain payload cfg = Return cfg' ->
  untouched_outside "garmin" ["domain"] cfg cfg' /\
  (forall v, member2 "garmin" "domain" payload = Some v ->
             member2 "garmin" "domain" cfg' = Some v).
Proof.
  unfold Routes.merge_domain. intros H.
  apply bind_Return in H as (has & Hhas & H).
  apply bind_Return in H as (has_domain & Hdom & H).
  destruct has_domain.
  - apply bind_Return in H as (cfg1 & Hdef & H).
    apply bind_Return in H as (garmin & Hgarmin & H).
    apply bind_Return in H as (domain & Hdomain & H).
    assert (Hstep : (v <- PyJson.getitem garmin "domain" ;;
                     mine <- PyJson.getitem cfg1 "garmin" ;;
                     mine' <- PyJson.setitem mine "domain" v ;;
                     PyJson.setitem cfg1 "garmin" mine') = Return cfg')
      by (rewrite Hdomain; exact H).
    apply (copy_step "garmin" "domain" true) in Hstep as [Hframe Hset].
    split.
    + eapply untouched_trans; [|exact Hframe].
      eapply untouched_more; [|exact (setdefault_frame _ _ _ Hdef)].
      intros x [].
    + intros v Hv. destruct (Hset eq_refl) as (v' & Hv' & Hm).
      destruct (member2_Some _ _ _ _ Hv) as (given & _ & Hg & _ & Hget).
      congruence.
  - injection H as <-. split; [apply untouched_refl|].
    intros v Hv.
    destruct (member2_Some _ _ _ _ Hv) as (given & Hc & Hg & Hin & _).
    rewrite Hc in Hhas. injection Hhas as <-.
    rewrite Hg in Hdom. simpl in Hdom. congruence.
Qed.

Lemma recognized_false s j :
  recognized s j = false ->
  (s <> "credentials" \/ ~ In j credentials_keys) /\
  (s <> "data" \/ ~ In j data_keys) /\
  (s <> "garmin" \/ ~ In j ["domain"]).
Proof.
  unfold recognized. intros H.
  apply orb_false_elim in H as [H Hg].
  apply orb_false_elim in H as [Hc Hd].
  repeat split.
  - destruct (String.eqb_spec s "credentials") as [->|]; [|now left].
    right. intros Hin. apply GuardFacts.contains_In in Hin.
    rewrite Hin in Hc. discriminate.
  - destruct (String.eqb_spec s "data") as [->|]; [|now left].
    right. intros Hin. apply GuardFacts.contains_In in Hin.
    rewrite Hin in Hd. discriminate.
  - destruct (String.eqb_spec s "garmin") as [->|]; [|now left].
    right. intros [<-|[]]. simpl in Hg. discriminate.
Qed.

(** X13.  The merge of [update_config] changes nothing but recognized keys:
    the document written agrees with the one read on every member outside
    [credentials], [data] and [garmin], and inside those sections on every
    member that is not one of the recognized keys.  Unknown keys of the
    payload are dropped. *)
Theorem merge_touches_only_recognized_keys (payload cfg cfg' : json) :
  merged payload cfg = Return cfg' ->
  (forall k, ~ In k ["credentials"; "data"; "garmin"] ->
             member k cfg' = member k cfg) /\
  (forall s j, recognized s j = false ->
               member2 s j cfg' = member2 s j cfg).
Proof.
  unfold merged. intros H.
  apply bind_Return in H as (c1 & H1 & H).
  apply bind_Return in H as (c2 & H2 & H3).
  apply merge_section_frame in H1 as [K1 J1].
  apply merge_section_frame in H2 as [K2 J2].
  apply merge_domain_Return in H3 as [[K3 J3] _].
  split.
  - intros k Hk. simpl in Hk.
    rewrite K3, K2, K1; [reflexivity|..]; intros ->; tauto.
  - intros s j Hr. apply recognized_false in Hr as (Hc & Hd & Hg).
    now rewrite J3, J2, J1.
Qed.

Lemma merge_touches_only_recognized_keys_witness :
  exists cfg',
    merged (JObj [("credentials", JObj [("user", JStr "you");
                                        ("role", JStr "admin")]);
                  ("theme", JStr "dark")])
      Sample.stored_config = Return cfg' /\
    member "theme" cfg' = None /\
    member2 "credentials" "role" cfg' = None /\
    member2 "garmin" "domain" cfg' = Some (JStr "garmin.com").
Proof.
  eexists. split; [vm_compute; reflexivity|].
  destruct (merge_touches_only_recognized_keys
              (JObj [("credentials", JObj [("user", JStr "you");
                                           ("role", JStr "admin")]);
                     ("theme", JStr "dark")])
              Sample.stored_config _ eq_refl) as [Hk Hj].
  split; [|split].
  - rewrite Hk; [reflexivity|]. simpl.
    intros [E|[E|[E|[]]]]; discriminate.
  - rewrite Hj; reflexivity.
  - reflexivity.
Defined.

(** X14.  The merge of [update_config] copies every recognized key the
    payload gives: when the merge answers, each recognized member of a
    section of the payload is the member of that section of the document
    written, whatever was stored before. *)
Theorem merge_copies_recognized_keys (payload cfg cfg' : json)
    (s j : string) (v : json) :
  merged payload cfg = Return cfg' ->
  recognized s j = true ->
  member2 s j payload = Some v ->
  member2 s j cfg' = Some v.
Proof.
  unfold merged. intros H Hr Hv.
  apply bind_Return in H as (c1 & H1 & H).
  apply bind_Return in H as (c2 & H2 & H3).
  pose proof (merge_section_frame _ _ _ _ _ H2) as [_ J2].
  pose proof (merge_domain_Return _ _ _ H3) as [[_ J3] Hdomain].
  assert (Nc : NoDup credentials_keys).
  { unfold credentials_keys.
    repeat constructor; simpl; intuition discriminate. }
  assert (Nd : NoDup data_keys).
  { unfold data_keys. repeat constructor; simpl; intuition discriminate. }
  unfold recognized in Hr.
  apply orb_prop in Hr as [Hr|Hr]; [apply orb_prop in Hr as [Hr|Hr]|];
    apply andb_prop in Hr as [Hs Hj]; apply String.eqb_eq in Hs; subst s.
  - apply GuardFacts.contains_In in Hj.
    rewrite J3, J2 by (left; discriminate).
    eapply merge_section_copies; eassumption.
  - apply GuardFacts.contains_In in Hj.
    rewrite J3 by (left; discriminate).
    eapply merge_section_copies; eassumption.
  - apply String.eqb_eq in Hj. subst j. now apply Hdomain.
Qed.

Lemma merge_copies_recognized_keys_witness :
  exists cfg',
    merged (JObj [("credentials", JObj [("password", JStr "s3cret")])])
      Sample.stored_config = Return cfg' /\
    member2 "credentials" "password" cfg' = Some (JStr "s3cret").
Proof.
  eexists. split; [vm_compute; reflexivity|].
  apply (merge_copies_recognized_keys
           (JObj [("credentials", JObj [("password", JStr "s3cret")])])
           Sample.stored_config); reflexivity.
Defined.

Lemma update_config_session_stuck {C : Type} read_cfg write_cfg req
    (w : Routes.world C) :
  Routes.garth_session w = Some false ->
  Routes.update_config read_cfg write_cfg req w
  = (Return (json_error "cannot remove garth_session" 500), w).
Proof.
  intros Hs. destruct w as [d g l lw c]. simpl in Hs. subst g.
  reflexivity.
Qed.

(** X15.  [update_config] drops the cached session before anything else.
    When the session cannot be removed it answers 500 and neither reads nor
    writes the config.  Otherwise it reads the config in the world without
    the session, merges the payload, and hands the merged document to
    [write_cfg]: it answers [{"ok": true}] when that returns, and an
    exception of [read_cfg], of the merge (a malformed payload) or of
    [write_cfg] leaves the handler with the session already gone. *)
Theorem update_config_outcomes {C : Type}
    (read_cfg : io (Routes.world C) json)
    (write_cfg : json -> io (Routes.world C) unit)
    (req : option json) (w : Routes.world C) :
  (Routes.garth_session w = Some false ->
   Routes.update_config read_cfg write_cfg req w
   = (Return (json_error "cannot remove garth_session" 500), w)) /\
  (Routes.garth_session w <> Some false ->
   (forall e w1,
       read_cfg (without_session w) = (Raise e, w1) ->
       Routes.update_config read_cfg write_cfg req w = (Raise e, w1)) /\
   (forall cfg w1,
       read_cfg (without_session w) = (Return cfg, w1) ->
       (forall e,
           merged (payload_of req) cfg = Raise e ->
           Routes.update_config read_cfg write_cfg req w = (Raise e, w1)) /\
       (forall cfg',
           merged (payload_of req) cfg = Return cfg' ->
           Routes.update_config read_cfg write_cfg req w
           = match write_cfg cfg' w1 with
             | (Return _, w2) => (Return config_ok, w2)
             | (Raise e, w2) => (Raise e, w2)
             end))).
Proof.
  split; [apply update_config_session_stuck|].
  intros Hs.
  assert (Hdrop : forall k : option response -> io (Routes.world C) response,
             io_bind
               (io_try
                  (there <~ Routes.session_exists ;;
                   if there : bool
                   then io_try (_ <~ Routes.unlink_session ;; io_ret None)
                          (fun e =>
                             io_ret (Some (Routes._json_error (str e) 500)))
                   else io_ret None)
                  (fun e => io_ret (Some (Routes._json_error (str e) 500))))
               k w
             = k None (without_session w)).
  { intros k. destruct w as [d g l lw c]. simpl in Hs.
    unfold io_bind, io_try, Routes.session_exists, Routes.unlink_session.
    simpl. destruct g as [[|]|]; [reflexivity | now contradiction Hs |
                                   reflexivity]. }
  unfold Routes.update_config. rewrite Hdrop.
  fold (payload_of req). unfold io_bind, io_lift, io_ret.
  split.
  - intros e w1 Hread. now rewrite Hread.
  - intros cfg w1 Hread. rewrite Hread.
    change (c1 <- Routes.merge_section "credentials"
                    ["user"; "password"; "secure_password"; "password_file"]
                    (payload_of req) cfg ;;
            c2 <- Routes.merge_section "data"
                    ["weight_start_date"; "sleep_start_date";
                     "rhr_start_date"; "monitoring_start_date";
                     "download_latest_activities";
                     "download_all_activities"] (payload_of req) c1 ;;
            Routes.merge_domain (payload_of req) c2)
      with (merged (payload_of req) cfg).
    split.
    + intros e Hm. now rewrite Hm.
    + intros cfg' Hm. rewrite Hm.
      destruct (write_cfg cfg' w1) as [[[]|e] w2]; reflexivity.
Qed.

Lemma update_config_outcomes_witness :
  Routes.update_config Sample.read_cfg Sample.write_cfg
    (Some (JObj [("garmin", JObj [("domain", JStr "garmin.cn")])]))
    Sample.routes_world
  = (Return config_ok,
     Routes.mkWorld (Some Sample.data_root) None None true
       (JObj [("credentials",
               JObj [("user", JStr "me@example.org");
                     ("password", JStr "hunter2")]);
              ("garmin", JObj [("domain", JStr "garmin.cn")])])) /\
  Routes.update_config Sample.read_cfg Sample.write_cfg (Some (JNum 5))
    Sample.routes_world
  = (raise TypeError "argument is not iterable",
     without_session Sample.routes_world).
Proof.
  destruct (update_config_outcomes Sample.read_cfg Sample.write_cfg
              (Some (JObj [("garmin", JObj [("domain", JStr "garmin.cn")])]))
              Sample.routes_world) as [_ Hok].
  destruct (update_config_outcomes Sample.read_cfg Sample.write_cfg
              (Some (JNum 5)) Sample.routes_world) as [_ Hbad].
  split.
  - destruct (Hok ltac:(discriminate)) as [_ H].
    destruct (H _ _ eq_refl) as [_ Hwrite].
    rewrite (Hwrite _ eq_refl). reflexivity.
  - destruct (Hbad ltac:(discriminate)) as [_ H].
    destruct (H _ _ eq_refl) as [Hraise _].
    apply Hraise. reflexivity.
Defined.

(** X16.  [update_garmin_data] of [routes.py] ignores what [update_config]
    answers: when the cached session cannot be removed, so that the config
    step answers 500 without reading or writing the config, the tool is
    still run and the response follows its exit code.  The world is the one
    the tool left, with the entry of the run appended to the log. *)
Theorem update_runs_the_tool_when_config_fails {C : Type}
    (UPDATE_LOG CLI : string) (read_cfg : io (Routes.world C) json)
    (write_cfg : json -> io (Routes.world C) unit) (req : option json)
    (x : execution (Routes.world C)) (w : Routes.world C)
    (cp : CompletedProcess) :
  Routes.garth_session w = Some false ->
  completed x = Return cp ->
  Routes.log_writable (effect x w) = true ->
  Routes.update_garmin_data UPDATE_LOG CLI read_cfg write_cfg req x w
  = (Return (answer (result_of UPDATE_LOG x cp)),
     logged (log_entry (CLI :: arguments) cp) (effect x w)).
Proof.
  intros Hs Hcp Hlog.
  unfold Routes.update_garmin_data, io_bind.
  rewrite (update_config_session_stuck read_cfg write_cfg req w Hs).
  unfold Routes._run_garmindb, io_bind, subprocess_run, Routes.append_log.
  rewrite Hcp, Hlog. reflexivity.
Qed.

Lemma update_runs_the_tool_when_config_fails_witness :
  exists w',
    Routes.update_garmin_data "/srv/app/update.log" "garmindb_cli.py"
      Sample.read_cfg Sample.write_cfg None (Sample.exits 0 "")
      (Routes.mkWorld (Some Sample.data_root) (Some false) None true
         Sample.stored_config)
    = (Return (answer (result_of "/srv/app/update.log"
                         (Sample.exits (W := Routes.world json) 0 "")
                         (mkCompleted 0 "" ""))), w') /\
    Routes.config_state w' = Sample.stored_config /\
    Routes.garth_session w' = Some false.
Proof.
  eexists. split.
  - apply (update_runs_the_tool_when_config_fails "/srv/app/update.log"
             "garmindb_cli.py" Sample.read_cfg Sample.write_cfg None
             (Sample.exits 0 "")); reflexivity.
  - split; reflexivity.
Defined.

End ConfigExtras.

Module EndpointExtras.
Import PyFacts GuardFacts HandlerFacts.

Lemma append_assoc (a b c : string) :
  ((a ++ b) ++ c)%string = (a ++ b ++ c)%string.
Proof. induction a as [|ch a IH]; simpl; [reflexivity | now rewrite IH]. Qed.

Lemma update_completed_log (P : App.paths) (x : execution App.world)
    (cp : CompletedProcess) (w : App.world) :
  completed x = Return cp ->
  leaves_log_alone x ->
  App.log_writable w = true ->
  exists r w',
    App.update_garmin_data P x w = (Return r, w') /\
    App.log_file w' = Some (log_text w ++ log_entry (App.cmd P) cp)%string /\
    App.log_writable w' = true.
Proof.
  intros Hcp Hx Hw. destruct (Hx w) as [Hlog Hwr].
  unfold App.update_garmin_data, App._run_update_sync, io_bind,
    subprocess_run, App.append_log.
  rewrite Hcp, Hwr, Hw, Hlog. simpl.
  eexists. eexists. split; [reflexivity|]. split; reflexivity.
Qed.

(** X17.  The update log is append-only.  After two updates in which the
    tool ran to completion (with any exit codes), [GET /api/update/log]
    answers 200 with the text the log had before, followed by the entry of
    the first run, followed by the entry of the second; and each entry ends
    with the line [exit=<returncode>]. *)
Theorem update_log_is_append_only (P : App.paths)
    (x1 x2 : execution App.world) (cp1 cp2 : CompletedProcess)
    (w : App.world) :
  completed x1 = Return cp1 ->
  completed x2 = Return cp2 ->
  leaves_log_alone x1 ->
  leaves_log_alone x2 ->
  App.log_writable w = true ->
  exists r1 w1 r2 w2,
    App.update_garmin_data P x1 w = (Return r1, w1) /\
    App.update_garmin_data P x2 w1 = (Return r2, w2) /\
    App.update_log w2
    = (Return (mkResponse 200
                 (Text (log_text w ++ log_entry (App.cmd P) cp1
                        ++ log_entry (App.cmd P) cp2)%string)), w2) /\
    exists body,
      log_entry (App.cmd P) cp2
      = (body ++ "exit=" ++ string_of_Z (cp_returncode cp2) ++ newline)%string.
Proof.
  intros H1 H2 Hx1 Hx2 Hw.
  destruct (update_completed_log P x1 cp1 w H1 Hx1 Hw)
    as (r1 & w1 & Hr1 & Hl1 & Hw1).
  destruct (update_completed_log P x2 cp2 w1 H2 Hx2 Hw1)
    as (r2 & w2 & Hr2 & Hl2 & _).
  exists r1, w1, r2, w2. split; [exact Hr1|]. split; [exact Hr2|]. split.
  - unfold App.update_log. rewrite Hl2. unfold log_text at 1.
    rewrite Hl1. now rewrite append_assoc.
  - exists (newline ++ "$ " ++ String.concat " " (App.cmd P) ++ newline
            ++ cp_stdout cp2 ++ cp_stderr cp2 ++ newline)%string.
    unfold log_entry. now rewrite !append_assoc.
Qed.

Lemma update_log_is_append_only_witness :
  exists w2,
    App.update_log w2
    = (Return (mkResponse 200
                 (Text (log_text Sample.world
                        ++ log_entry (App.cmd Sample.paths)
                             (mkCompleted 0 "" "")
                        ++ log_entry (App.cmd Sample.paths)
                             (mkCompleted 2 "" "no network"))%string)), w2).
Proof.
  destruct (update_log_is_append_only Sample.paths
              (Sample.exits 0 "") (Sample.exits 2 "no network")
              (mkCompleted 0 "" "") (mkCompleted 2 "" "no network")
              Sample.world)
    as (_ & _ & _ & w2 & _ & _ & H & _).
  - reflexivity.
  - reflexivity.
  - intros w. split; reflexivity.
  - intros w. split; reflexivity.
  - reflexivity.
  - exists w2. exact H.
Defined.

Ltac each_endpoint H :=
  unfold metric_endpoints in H; simpl in H;
  destruct H as [<-|[<-|[<-|[<-|[<-|[]]]]]].

(** X18.  None of the five metric endpoints raises or changes the world,
    whatever the reader and [jsonify] do.  Without a database file each
    answers 503 with [Database not found at <DB_PATH>]; with one, each
    answers either 200 or 500 with the text of the exception as [error]. *)
Theorem metric_endpoints_never_raise (P : App.paths) (L : Pandas.lib)
    (jsonify : forall A : Type, list A -> py payload)
    (h : io App.world response) (w : App.world) :
  In h (metric_endpoints P L jsonify) ->
  exists r,
    h w = (Return r, w) /\
    (App.db_file w = None -> r = App.not_found P) /\
    (App.db_file w <> None ->
     (exists body, r = mkResponse 200 body) \/
     (exists e, r = json_error (str e) 500)).
Proof.
  intros Hh. each_endpoint Hh.
  all: unfold App.daily_summary, App.stress_endpoint, App.steps,
         App.exercise, App.sleep.
  all: destruct (App.db_file w) as [con|];
    [|eexists; split; [reflexivity|]; split; [reflexivity|congruence]].
  all: match goal with
       | |- context [try_except (Py.bind ?c _) _] => destruct c as [data|e]
       end; simpl;
    [|eexists; split; [reflexivity|]; split; [discriminate|];
      intros _; right; eauto].
  all: destruct (jsonify _ data) as [body|e]; simpl;
    eexists; (split; [reflexivity|]); (split; [discriminate|]);
    intros _; [left|right]; eauto.
Qed.

Lemma metric_endpoints_never_raise_witness :
  exists r,
    App.steps Sample.paths (fun _ _ => Return (Text "[]")) Sample.world
    = (Return r, Sample.world).
Proof.
  destruct (metric_endpoints_never_raise Sample.paths
              Sample.strict
              (fun _ _ => Return (Text "[]"))
              (App.steps Sample.paths (fun _ _ => Return (Text "[]")))
              Sample.world) as (r & H & _).
  - simpl. auto.
  - exists r. exact H.
Defined.

Lemma fetch_exercise_no_table (L : Pandas.lib) (con : database) (days : Z) :
  db_ok con = true ->
  ~ In "daily_summary" (table_names con) ->
  App.fetch_exercise L con days
  = raise RuntimeError "daily_summary table not found".
Proof.
  intros Hok Hno. unfold App.fetch_exercise.
  now rewrite (table_exists_false con _ Hok Hno).
Qed.

Lemma fetch_steps_no_table (con : database) (days : Z) :
  db_ok con = true ->
  ~ In "daily_summary" (table_names con) ->
  App.fetch_steps con days = raise RuntimeError "daily_summary table not found".
Proof.
  intros Hok Hno. unfold App.fetch_steps.
  now rewrite (table_exists_false con _ Hok Hno).
Qed.

Lemma fetch_stress_no_table (con : database) (days : Z) :
  db_ok con = true ->
  ~ In "daily_summary" (table_names con) ->
  App.fetch_stress con days
  = raise RuntimeError "daily_summary table not found".
Proof.
  intros Hok Hno. unfold App.fetch_stress.
  now rewrite (table_exists_false con _ Hok Hno).
Qed.

Lemma fetch_sleep_no_table (L : Pandas.lib) (con : database) (days : Z) :
  db_ok con = true ->
  ~ In "sleep" (table_names con) ->
  App.fetch_sleep L con days
  = raise RuntimeError
      "No 'sleep' table found. Expected columns: day, total_sleep, deep_sleep, light_sleep, rem_sleep, awake".
Proof.
  intros Hok Hno. unfold App.fetch_sleep.
  destruct (select_master_rows con "sleep" Hok) as (rows & -> & Hrows).
  apply Hrows in Hno. now subst rows.
Qed.

(** X19.  On a database that opens but has no table named exactly
    [daily_summary], the endpoints [/api/steps], [/api/stress] and
    [/api/exercise] all answer 500 with the error
    [daily_summary table not found]; with no table named exactly [sleep],
    [/api/sleep] answers 500 with the message that lists the expected
    columns.  [jsonify] is not reached and the world is unchanged. *)
Theorem missing_table_is_a_500 (P : App.paths) (L : Pandas.lib)
    (jsonify : forall A : Type, list A -> py payload)
    (w : App.world) (con : database) :
  App.db_file w = Some con ->
  db_ok con = true ->
  (~ In "daily_summary" (table_names con) ->
   App.steps P jsonify w
   = (Return (json_error "daily_summary table not found" 500), w) /\
   App.stress_endpoint P jsonify w
   = (Return (json_error "daily_summary table not found" 500), w) /\
   App.exercise P L jsonify w
   = (Return (json_error "daily_summary table not found" 500), w)) /\
  (~ In "sleep" (table_names con) ->
   App.sleep P L jsonify w
   = (Return
        (json_error
           "No 'sleep' table found. Expected columns: day, total_sleep, deep_sleep, light_sleep, rem_sleep, awake"
           500), w)).
Proof.
  intros Hdb Hok. split.
  - intros Hno.
    unfold App.steps, App.stress_endpoint, App.exercise. rewrite Hdb.
    rewrite (fetch_steps_no_table con 30 Hok Hno).
    rewrite (fetch_stress_no_table con 30 Hok Hno).
    rewrite (fetch_exercise_no_table L con 30 Hok Hno).
    repeat split.
  - intros Hno. unfold App.sleep. rewrite Hdb.
    rewrite (fetch_sleep_no_table L con 30 Hok Hno). reflexivity.
Qed.

Lemma missing_table_is_a_500_witness :
  App.steps Sample.paths (fun _ _ => Return (Text "[]"))
    (App.mkWorld (Some (mkDatabase true [("sleep", mkTable ["day"] [])]))
       None true)
  = (Return (json_error "daily_summary table not found" 500),
     App.mkWorld (Some (mkDatabase true [("sleep", mkTable ["day"] [])]))
       None true).
Proof.
  destruct (missing_table_is_a_500 Sample.paths Sample.strict
              (fun _ _ => Return (Text "[]"))
              (App.mkWorld
                 (Some (mkDatabase true [("sleep", mkTable ["day"] [])]))
                 None true)
              (mkDatabase true [("sleep", mkTable ["day"] [])])
              eq_refl eq_refl) as [H _].
  apply H. simpl. intros [E|[]]; discriminate.
Defined.



End EndpointExtras.
